(** * NFL_Scraper: the record-extraction core of [scraper.py]

    A shallow embedding of the parsing and retry logic of [NflScraper]
    ([src/scraper.py]): the status/date parser [get_game_status_date], the
    token classifier [get_score_data], the per-entry loop and the
    expected-count lookup of [get_game_week_data], and the bounded retry of
    [select_year_and_week].

    Conventions of the model.
    - Text is ASCII ([string]); [str.split], [str.isupper], [str.isnumeric]
      and [int] are the restrictions of the Python built-ins to ASCII.
    - A Python exception is a value of [exn]; code that may raise returns a
      [result].  The interpreter's limit on the number of digits [int]
      converts is not modelled.
    - Python [int] is [Z]; a list is a [list]; a cell of the data frame is a
      [pyval].
    - The browser is a collaborator that is not part of the repository's
      parsing code: it is the class [RemoteView], over an abstract state.
      An entry of the page is the record of what the XPath look-ups of the
      loop find in it; the script that frames an element in red changes no
      data and is left out.  [wait_until] is the wait of selenium that the
      scraper puts around every look-up of the page. *)

From Stdlib Require Import String Ascii List ZArith Lia Bool Arith.
From Stdlib Require Import DecimalString.
From Equations Require Import Equations.
Import ListNotations.

Open Scope string_scope.
Open Scope list_scope.
Open Scope nat_scope.

(** ** Exceptions and results *)

Inductive exn : Type :=
| StaleElementReferenceException
| NoSuchElementException
| TimeoutException
| ValueError
| IndexError
| TypeError.

Inductive result (A : Type) : Type :=
| Ok (a : A)
| Raise (e : exn).
Arguments Ok {A} a.
Arguments Raise {A} e.

Definition bind {A B : Type} (r : result A) (k : A -> result B) : result B :=
  match r with
  | Ok a => k a
  | Raise e => Raise e
  end.

Notation "x <- c ;; k" := (bind c (fun x => k))
  (at level 61, c at next level, right associativity).

(** ** Python values held in a row of the data frame *)

Inductive pyval : Type :=
| PNone                (* None *)
| PNaN                 (* np.nan *)
| PInt (z : Z)         (* an int *)
| PStr (s : string).   (* a str *)

Module Py.

(** [c.isspace()] on ASCII: tab, line feed, vertical tab, form feed,
    carriage return, the four separators 0x1c-0x1f, and space. *)
Definition isspace (c : ascii) : bool :=
  let n := nat_of_ascii c in
  ((9 <=? n) && (n <=? 13)) || ((28 <=? n) && (n <=? 32)).

(** [c.isupper()] on one ASCII character. *)
Definition isupper (c : ascii) : bool :=
  let n := nat_of_ascii c in (65 <=? n) && (n <=? 90).

Definition isdigit (c : ascii) : bool :=
  let n := nat_of_ascii c in (48 <=? n) && (n <=? 57).

Definition digit_value (c : ascii) : Z := Z.of_nat (nat_of_ascii c - 48).

Fixpoint all_digits (s : string) : bool :=
  match s with
  | EmptyString => true
  | String c s' => isdigit c && all_digits s'
  end.

(** [s.isnumeric()]: at least one character, and all of them numeric. *)
Definition isnumeric (s : string) : bool :=
  match s with
  | EmptyString => false
  | String _ _ => all_digits s
  end.

(** [s[0]]: IndexError on the empty string. *)
Definition first_char (s : string) : result ascii :=
  match s with
  | EmptyString => Raise IndexError
  | String c _ => Ok c
  end.

(** [l[0]]: IndexError on the empty list. *)
Definition head {A : Type} (l : list A) : result A :=
  match l with
  | [] => Raise IndexError
  | x :: _ => Ok x
  end.

(** [l[i]] for a non-negative index. *)
Definition index {A : Type} (l : list A) (i : nat) : result A :=
  match nth_error l i with
  | Some x => Ok x
  | None => Raise IndexError
  end.

(** [l.pop(0)], keeping the list that is left. *)
Definition pop0 {A : Type} (l : list A) : result (list A) :=
  match l with
  | [] => Raise IndexError
  | _ :: l' => Ok l'
  end.

Definition emit (word : string) : list string :=
  match word with
  | EmptyString => []
  | String _ _ => [word]
  end.

(** [text.split()]: maximal runs of non-space characters. *)
Fixpoint split_from (word text : string) : list string :=
  match text with
  | EmptyString => emit word
  | String c rest =>
      if isspace c then emit word ++ split_from EmptyString rest
      else split_from (String.append word (String c EmptyString)) rest
  end.

Definition split (text : string) : list string := split_from EmptyString text.

(** [sep.join(words)]. *)
Definition join (sep : string) (words : list string) : string :=
  String.concat sep words.

(** [l.count(x)] on a list of strings. *)
Fixpoint count (x : string) (l : list string) : nat :=
  match l with
  | [] => 0
  | y :: l' => (if String.eqb y x then 1 else 0) + count x l'
  end.

(** [l.remove(x)]: the first occurrence goes, ValueError when there is
    none. *)
Fixpoint remove (x : string) (l : list string) : result (list string) :=
  match l with
  | [] => Raise ValueError
  | y :: l' =>
      if String.eqb y x then Ok l'
      else r <- remove x l' ;; Ok (y :: r)
  end.

(** [l.insert(i, x)] for a non-negative index (past the end: append). *)
Definition insert {A : Type} (i : nat) (x : A) (l : list A) : list A :=
  firstn i l ++ x :: skipn i l.

(** [s[1:len(s)-1]]. *)
Definition strip_ends (s : string) : string :=
  substring 1 (String.length s - 1 - 1) s.

Fixpoint lstrip (s : string) : string :=
  match s with
  | EmptyString => EmptyString
  | String c s' => if isspace c then lstrip s' else s
  end.

Fixpoint rstrip (s : string) : string :=
  match s with
  | EmptyString => EmptyString
  | String c s' =>
      match rstrip s' with
      | EmptyString => if isspace c then EmptyString else String c EmptyString
      | r => String c r
      end
  end.

(** Digits with single underscores between them, as [int] reads them. *)
Fixpoint digits_value (acc : Z) (after_digit : bool) (s : string) : option Z :=
  match s with
  | EmptyString => if after_digit then Some acc else None
  | String c s' =>
      if isdigit c then digits_value (10 * acc + digit_value c) true s'
      else if Ascii.eqb c "_"%char
           then (if after_digit then digits_value acc false s' else None)
           else None
  end.

(** [int(s)] for a str, base ten. *)
Definition int_of_str (s : string) : result Z :=
  let body := rstrip (lstrip s) in
  let parsed :=
    match body with
    | String "-"%char d => option_map Z.opp (digits_value 0 false d)
    | String "+"%char d => digits_value 0 false d
    | _ => digits_value 0 false body
    end in
  match parsed with
  | Some z => Ok z
  | None => Raise ValueError
  end.

(** [int(v)] for a cell value. *)
Definition int (v : pyval) : result Z :=
  match v with
  | PInt z => Ok z
  | PStr s => int_of_str s
  | PNaN => Raise ValueError
  | PNone => Raise TypeError
  end.

(** ["{}".format(n)] for an int. *)
Definition format_int (n : Z) : string :=
  NilZero.string_of_int (Z.to_int n).

End Py.

(** ** The status/date parser *)

(** The body of [get_game_status_date] once the text is split into
    tokens. *)
Definition game_status_date (sad_data : list string) : result (list string) :=
  if 1 <=? Py.count "CANCELLED" sad_data
  then Ok ["CANCELLED"; "CANCELLED"; "CANCELLED"]
  else Py.remove "-" sad_data.

(** [get_game_status_date], on the text of the status-and-date element. *)
Definition get_game_status_date (sad_text : string) : result (list string) :=
  game_status_date (Py.split sad_text).

(** ** The token classifier *)

(** The first [while] loop of [get_score_data]: side-by-side capitalised
    words are gathered in [multi_word_team_name] and joined into one element
    of [clean_scores_data] when the next other token arrives.  The result is
    the pair of both variables when [scores_data] is used up. *)
Fixpoint clean_scores_loop (scores_data multi_word_team_name clean_scores_data : list string)
  : result (list string * list string) :=
  match scores_data with
  | [] => Ok (clean_scores_data, multi_word_team_name)
  | tok :: rest =>
      c <- Py.first_char tok ;;
      if Py.isupper c
      then clean_scores_loop rest (multi_word_team_name ++ [tok]) clean_scores_data
      else
        if 0 <? length multi_word_team_name
        then clean_scores_loop rest []
               ((clean_scores_data ++ [Py.join " " multi_word_team_name]) ++ [tok])
        else clean_scores_loop rest multi_word_team_name (clean_scores_data ++ [tok])
  end.

(** The two variable pairs the second loop assigns. *)
Record pair_vars : Type := {
  away_record : pyval;
  home_record : pyval;
  away_score : pyval;
  home_score : pyval
}.

Definition initial_pair_vars : pair_vars :=
  {| away_record := PNaN; home_record := PNaN;
     away_score := PInt 0; home_score := PInt 0 |}.

Definition set_scores (a h : string) (v : pair_vars) : pair_vars :=
  {| away_record := away_record v; home_record := home_record v;
     away_score := PStr a; home_score := PStr h |}.

Definition set_records (a h : string) (v : pair_vars) : pair_vars :=
  {| away_record := PStr a; home_record := PStr h;
     away_score := away_score v; home_score := home_score v |}.

(** The second [while] loop: scores and records, one element of each side
    per turn. *)
Fixpoint scores_records_loop (away_team home_team : list string) (v : pair_vars)
  : result pair_vars :=
  match away_team with
  | [] => Ok v
  | a :: away_rest =>
      h <- Py.head home_team ;;
      home_rest <- Py.pop0 home_team ;;
      scores_records_loop away_rest home_rest
        (if Py.isnumeric a then set_scores a h v else set_records a h v)
  end.

(** The team win check: [(away_win, home_win)], both 0 when neither
    comparison holds.  (The [elif] converts the two scores again, to the same
    values.) *)
Definition team_win_check (v : pair_vars) : result (Z * Z) :=
  a <- Py.int (away_score v) ;;
  h <- Py.int (home_score v) ;;
  if (a >? h)%Z then Ok (1, 0)%Z
  else if (a <? h)%Z then Ok (0, 1)%Z
  else Ok (0, 0)%Z.

(** The postseason check:
    [(is_postseason, away_seeding, home_seeding, away_team, home_team)]. *)
Definition postseason_check (away_team home_team : list string)
  : result (Z * pyval * pyval * list string * list string) :=
  a0 <- Py.head away_team ;;
  if Py.isnumeric a0
  then
    h0 <- Py.head home_team ;;
    away_rest <- Py.pop0 away_team ;;
    home_rest <- Py.pop0 home_team ;;
    Ok (1%Z, PStr a0, PStr h0, away_rest, home_rest)
  else Ok (0%Z, PNaN, PNaN, away_team, home_team).

(** The body of [get_score_data] once the text is split into tokens. *)
Definition organize_game_data (scores_data : list string) : result (list pyval) :=
  cleaned <- clean_scores_loop scores_data [] [] ;;
  let clean_scores_data := fst cleaned in
  let data_split := length clean_scores_data / 2 in
  let away_team := firstn data_split clean_scores_data in
  let home_team := skipn data_split clean_scores_data in
  post <- postseason_check away_team home_team ;;
  let '(is_postseason, away_seeding, home_seeding, away_team, home_team) := post in
  away_team_name <- Py.head away_team ;;
  home_team_name <- Py.head home_team ;;
  away_team <- Py.pop0 away_team ;;
  home_team <- Py.pop0 home_team ;;
  v <- scores_records_loop away_team home_team initial_pair_vars ;;
  wins <- team_win_check v ;;
  Ok [PStr away_team_name; away_record v; away_score v; PInt (fst wins);
      PStr home_team_name; home_record v; home_score v; PInt (snd wins);
      away_seeding; home_seeding; PInt is_postseason].

(** [get_score_data], on the text of the score element. *)
Definition get_score_data (scores_text : string) : result (list pyval) :=
  organize_game_data (Py.split scores_text).

(** ** Entries of a week and the data frame *)

(** What the look-ups of the loop find in one entry: [None] is an XPath that
    matches nothing ([find_element] raises NoSuchElementException), [Some] is
    the text of the element found. *)
Record game_element : Type := {
  status_and_date : option string;   (* ./div[1] *)
  score : option string              (* ./div[2]/div *)
}.

Record entry_element : Type := {
  game : option game_element;        (* ./div/div/button/div *)
  bye : option string                (* .//button/div[1] *)
}.

Definition find_element {A : Type} (x : option A) : result A :=
  match x with
  | Some a => Ok a
  | None => Raise NoSuchElementException
  end.

Definition columns : list string :=
  ["Season"; "Week"; "GameStatus"; "Day"; "Date";
   "AwayTeam"; "AwayRecord"; "AwayScore"; "AwayWin";
   "HomeTeam"; "HomeRecord"; "HomeScore"; "HomeWin";
   "AwaySeeding"; "HomeSeeding"; "PostSeason?"].

Definition data_frame : Type := list (list pyval).

(** [df.loc[len(df)] = row]: a row of another length than the columns is
    refused with ValueError.  The frame is the list of the rows as they were
    assigned; the types pandas gives the columns as the frame grows are not
    modelled. *)
Definition loc_append (df : data_frame) (row : list pyval) : result data_frame :=
  if length row =? length columns then Ok (df ++ [row]) else Raise ValueError.

Fixpoint position (name : string) (names : list string) : nat :=
  match names with
  | [] => 0
  | n :: names' => if String.eqb n name then 0 else S (position name names')
  end.

(** The cell of a row under a column name. *)
Definition cell (name : string) (row : list pyval) : option pyval :=
  nth_error row (position name columns).

(** The played-game path of the loop body. *)
Definition game_row (chosen_year chosen_week : string) (i : entry_element)
  : result (list pyval) :=
  g <- find_element (game i) ;;
  status_and_date_text <- find_element (status_and_date g) ;;
  sad_data <- get_game_status_date status_and_date_text ;;
  score_text <- find_element (score g) ;;
  score_data <- get_score_data score_text ;;
  Ok (Py.insert 0 (PStr chosen_year)
        (Py.insert 0 (PStr chosen_week) (map PStr sad_data ++ score_data))).

(** The bye path of the loop body. *)
Definition bye_row (chosen_year chosen_week : string) (i : entry_element)
  : result (list pyval) :=
  bye_text <- find_element (bye i) ;;
  let bye_week := repeat PNaN 7 in
  let bye_data := Py.split bye_text in
  let bye_week := Py.insert 0 (PStr chosen_year) bye_week in
  let bye_week := Py.insert 1 (PStr chosen_week) bye_week in
  let bye_week := Py.insert 2 (PStr "BYE") bye_week in
  let bye_week := Py.insert 3 PNone bye_week in
  let bye_week := Py.insert 4 PNone bye_week in
  name <- Py.index bye_data 0 ;;
  let bye_week := Py.insert 5 (PStr name) bye_week in
  record <- Py.index bye_data 1 ;;
  let bye_week := Py.insert 6 (PStr (Py.strip_ends record)) bye_week in
  let bye_week := Py.insert 9 PNone bye_week in
  Ok (bye_week ++ [PInt 0]).

(** One turn of the [for] loop: only NoSuchElementException is caught, first
    by the bye path and then by [continue]. *)
Definition process_entry (chosen_year chosen_week : string)
  (df_week_scores : data_frame) (i : entry_element) : result data_frame :=
  match (row <- game_row chosen_year chosen_week i ;; loc_append df_week_scores row) with
  | Raise NoSuchElementException =>
      match (row <- bye_row chosen_year chosen_week i ;; loc_append df_week_scores row) with
      | Raise NoSuchElementException => Ok df_week_scores
      | r => r
      end
  | r => r
  end.

(** The [for] loop over the entries that are left after the titles. *)
Fixpoint process_entries (chosen_year chosen_week : string)
  (df_week_scores : data_frame) (scores_byes_webelements : list entry_element)
  : result data_frame :=
  match scores_byes_webelements with
  | [] => Ok df_week_scores
  | i :: rest =>
      df <- process_entry chosen_year chosen_week df_week_scores i ;;
      process_entries chosen_year chosen_week df rest
  end.

(** The number of elements [get_game_week_data] waits for. *)
Definition num_score_elements (chosen_week : string) : Z :=
  if existsb (String.eqb chosen_week) ["Hall Of Fame"; "Pro Bowl"; "Super Bowl"] then 4%Z
  else if existsb (String.eqb chosen_week) ["Conference Championships"] then 5%Z
  else if existsb (String.eqb chosen_week) ["Divisional Playoffs"] then 7%Z
  else if existsb (String.eqb chosen_week) ["Wild Card Weekend"] then 7%Z
  else 19%Z.

(** ** The remote view *)

(** What the driver and the waits of [custom_conditions] (which is not part
    of [scraper.py]) do is left open: each operation takes the state of the
    browser and gives the state after it, with the value returned or the
    exception raised.  The three waits are the three [wait.until] calls of
    the scraper. *)
Class RemoteView (World : Type) : Type := {
  current_url : World -> string;
  driver_get : string -> World -> World;
  (* wait.until(dropdown_search_and_select((By.ID, id), label)) *)
  dropdown_search_and_select : string -> string -> World -> result unit * World;
  (* wait.until(EC.presence_of_element_located(...)).get_attribute("class") *)
  shared_classname : World -> result string * World;
  (* wait.until(enough_elements_present((By.CLASS_NAME, cls), n)) *)
  enough_elements_present : string -> Z -> World -> result (list entry_element) * World
}.

(** [WebDriverWait(driver, timeout).until(method)] of selenium, with the
    exception it ignores by default: the method is evaluated on the driver;
    a true value is returned; a false value or a NoSuchElementException makes
    the wait try again until the time is over, when it raises
    TimeoutException; any other exception leaves the wait.  Time is not
    modelled: [polls] is the number of evaluations the timeout still allows
    after the one made. *)
Fixpoint wait_until {World A : Type} (polls : nat)
  (method : World -> result (option A) * World) (v : World) : result A * World :=
  let again v1 :=
    match polls with
    | S k => wait_until k method v1
    | O => (Raise TimeoutException, v1)
    end in
  match method v with
  | (Ok (Some value), v1) => (Ok value, v1)
  | (Ok None, v1) => again v1
  | (Raise NoSuchElementException, v1) => again v1
  | (Raise e, v1) => (Raise e, v1)
  end.

(** The method raises NoSuchElementException at the evaluation made in [v]
    and at each of the [polls] evaluations after it. *)
Fixpoint missing_at_every_poll {World A : Type} (polls : nat)
  (method : World -> result (option A) * World) (v : World) : Prop :=
  exists v1,
    method v = (Raise NoSuchElementException, v1)
    /\ match polls with
       | S k => missing_at_every_poll k method v1
       | O => True
       end.

(** The state a call runs in: the browser, what was printed, and (a ghost
    field, for counting) the budget of every invocation of
    [select_year_and_week] so far. *)
Record session (World : Type) : Type := {
  view : World;
  stdout : list string;
  invocations : list Z
}.
Arguments view {World} s.
Arguments stdout {World} s.
Arguments invocations {World} s.

Definition scores_url : string := "https://www.nfl.com/scores/".

Definition default_max_attempts : Z := 5%Z.

Section Scraper.

Context {World : Type} `{RemoteView World}.

Definition with_view (s : session World) (v : World) : session World :=
  {| view := v; stdout := stdout s; invocations := invocations s |}.

Definition print (msg : string) (s : session World) : session World :=
  {| view := view s; stdout := stdout s ++ [msg]; invocations := invocations s |}.

Definition enter (max_attempts : Z) (s : session World) : session World :=
  {| view := view s; stdout := stdout s;
     invocations := invocations s ++ [max_attempts] |}.

(** The start of [select_year_and_week]: open the scores page unless the
    driver is on it. *)
Definition ensure_scores_page (s : session World) : session World :=
  if String.eqb (current_url (view s)) scores_url then s
  else with_view s (driver_get scores_url (view s)).

(** The [try] block of [select_year_and_week]: the season, then the week. *)
Definition select_dropdowns (chosen_year chosen_week : string) (s : session World)
  : result unit * session World :=
  match dropdown_search_and_select "Season" chosen_year (view s) with
  | (Ok _, v1) =>
      match dropdown_search_and_select "Week" chosen_week v1 with
      | (r, v2) => (r, with_view s v2)
      end
  | (Raise e, v1) => (Raise e, with_view s v1)
  end.

Definition searching_message (what : string) (max_attempts : Z) : string :=
  String.append "SEARCHING, attempting "
    (String.append (Py.format_int max_attempts)
       (String.append " more times" what)).

(** [select_year_and_week]: every path that returns, returns [None].  The
    [driver] argument is [self.driver] at every call, so the one browser of
    the session stands for both. *)
Equations? select_year_and_week (chosen_year chosen_week : string)
  (max_attempts : Z) (s : session World)
  : result pyval * session World by wf (Z.to_nat max_attempts) lt :=
  select_year_and_week chosen_year chosen_week max_attempts s
    with select_dropdowns chosen_year chosen_week
           (ensure_scores_page (enter max_attempts s)) => {
    | (Ok _, s1) := (Ok PNone, s1);
    | (Raise StaleElementReferenceException, s1) with Z_gt_dec max_attempts 0 => {
        | left _ :=
            select_year_and_week chosen_year chosen_week (max_attempts - 1)
              (print (searching_message " (select year and week)" max_attempts) s1);
        | right _ :=
            (Ok PNone, print "Driver unable to find available options. Try again." s1) };
    | (Raise NoSuchElementException, s1) :=
        (Ok PNone, print "This year/week is not an option." s1);
    | (Raise e, s1) := (Raise e, s1) }.
Proof. lia. Qed.

(** What [get_game_week_data] does outside its [try]: navigation with the
    default budget, then the class name shared by the entries.  An
    exception of either is not handled. *)
Definition open_week (chosen_year chosen_week : string) (s : session World)
  : result string * session World :=
  match select_year_and_week chosen_year chosen_week default_max_attempts s with
  | (Raise e, s1) => (Raise e, s1)
  | (Ok _, s1) =>
      match shared_classname (view s1) with
      | (r, v2) => (r, with_view s1 v2)
      end
  end.

(** The guarded wait for [num_score_elements] elements of that class. *)
Definition wait_for_entries (scores_shared_classname chosen_week : string)
  (s : session World) : result (list entry_element) * session World :=
  match enough_elements_present scores_shared_classname
          (num_score_elements chosen_week) (view s) with
  | (r, v) => (r, with_view s v)
  end.

(** [get_game_week_data]: the data frame, or [None] when the elements
    never appeared. *)
Equations? get_game_week_data (chosen_year chosen_week : string)
  (max_attempts : Z) (s : session World)
  : result (option data_frame) * session World by wf (Z.to_nat max_attempts) lt :=
  get_game_week_data chosen_year chosen_week max_attempts s
    with open_week chosen_year chosen_week s => {
    | (Raise e, s1) := (Raise e, s1);
    | (Ok scores_shared_classname, s1)
        with wait_for_entries scores_shared_classname chosen_week s1 => {
        | (Ok titles_scores_byes_webelements, s2) :=
            (df <- process_entries chosen_year chosen_week []
                     (skipn 3 titles_scores_byes_webelements) ;;
             Ok (Some df), s2);
        | (Raise TimeoutException, s2) with Z_gt_dec max_attempts 0 => {
            | left _ :=
                get_game_week_data chosen_year chosen_week (max_attempts - 1)
                  (print (searching_message " (get game week data)" max_attempts) s2);
            | right _ := (Ok None, print "Unable to get game week data." s2) };
        | (Raise e, s2) := (Raise e, s2) } }.
Proof. lia. Qed.

End Scraper.

(** ** A scripted page *)

(** A page to run the scraper on: the scores view of one catalog of seasons
    and weeks, which reports a stale element a given number of times before
    it settles, and shows a fixed list of entries. *)
Module Page.

Record page : Type := {
  url : string;
  stale_reports : nat;                      (* re-renderings still to come *)
  catalog : list (string * list string);    (* season label, week labels *)
  season : option string;
  week : option string;
  rendered : list entry_element
}.

Definition weeks_of (label : string) (p : page) : list string :=
  match find (fun sw => String.eqb (fst sw) label) (catalog p) with
  | Some sw => snd sw
  | None => []
  end.

(** The option set of a dropdown, as the page shows it. *)
Definition options (id : string) (p : page) : list string :=
  if String.eqb id "Season" then map fst (catalog p)
  else match season p with
       | Some y => weeks_of y p
       | None => []
       end.

Definition goto (target : string) (p : page) : page :=
  {| url := target; stale_reports := stale_reports p; catalog := catalog p;
     season := season p; week := week p; rendered := rendered p |}.

Definition choose (id label : string) (p : page) : page :=
  if String.eqb id "Season"
  then {| url := url p; stale_reports := stale_reports p; catalog := catalog p;
          season := Some label; week := week p; rendered := rendered p |}
  else {| url := url p; stale_reports := stale_reports p; catalog := catalog p;
          season := season p; week := Some label; rendered := rendered p |}.

(** Modelled from the spec: one evaluation of [dropdown_search_and_select]
    of [custom_conditions], which is not in [scraper.py].  After sections 4.1
    and 6 of the specification, a select reports a stale reference while the
    page is still re-rendering, reports a missing option when the label is
    not in the option set of its dropdown, and otherwise selects. *)
Definition select (id label : string) (p : page) : result unit * page :=
  match stale_reports p with
  | S k =>
      (Raise StaleElementReferenceException,
       {| url := url p; stale_reports := k; catalog := catalog p;
          season := season p; week := week p; rendered := rendered p |})
  | O =>
      if existsb (String.eqb label) (options id p)
      then (Ok tt, choose id label p)
      else (Raise NoSuchElementException, p)
  end.

(** Modelled from the spec: [enough_elements_present] of
    [custom_conditions], which is not in [scraper.py].  After section 4.2 of
    the specification, the wait succeeds with all elements when at least the
    expected number is rendered, and times out otherwise. *)
Definition entries (cls : string) (n : Z) (p : page)
  : result (list entry_element) * page :=
  if (n <=? Z.of_nat (length (rendered p)))%Z
  then (Ok (rendered p), p)
  else (Raise TimeoutException, p).

(** The method the wait evaluates: a select that went through is a true
    value. *)
Definition condition (id label : string) (p : page) : result (option unit) * page :=
  match select id label p with
  | (Ok u, p1) => (Ok (Some u), p1)
  | (Raise e, p1) => (Raise e, p1)
  end.

(** The evaluations a wait of twenty seconds allows after the first, one
    every half second. *)
Definition polls : nat := 39.

#[global] Instance remote_view : RemoteView page := {|
  current_url := url;
  driver_get := goto;
  dropdown_search_and_select := fun id label => wait_until polls (condition id label);
  shared_classname := fun p => (Ok "nfl-c-matchup-strip", p);
  enough_elements_present := entries
|}.

Definition start (p : page) : session page :=
  {| view := p; stdout := []; invocations := [] |}.

(** A page on the scores view listing one season with two weeks. *)
Definition scores_page (stale : nat) (shown : list entry_element) : page :=
  {| url := scores_url; stale_reports := stale;
     catalog := [("2023", ["Week 14"; "Super Bowl"])];
     season := None; week := None; rendered := shown |}.

End Page.

(** ** The catalog of seasons and weeks, and the driver loop *)

(** What [display_seasons_and_weeks] reads from the two dropdowns; as for
    [RemoteView], the browser's answers are left open. *)
Class CatalogView (World : Type) : Type := {
  (* the option texts of Select(wait.until(presence_of_element_located("#Season"))) *)
  season_options : World -> result (list string) * World;
  (* the option texts of Select(wait.until(presence_of_element_located("#Week"))) *)
  week_options : World -> result (list string) * World
}.

(** The frame with the columns Season and Weeks. *)
Definition catalog_frame : Type := list (string * list string).

(** [pd.concat([data, adding_data], ignore_index=True)]: a [None] among the
    objects is dropped. *)
Definition concat (data : data_frame) (adding_data : option data_frame) : data_frame :=
  match adding_data with
  | Some df => data ++ df
  | None => data
  end.

(** The files written by [to_csv]: name and rows. *)
Definition csv_files : Type := list (string * data_frame).

Section Driver.

Context {World : Type} `{RemoteView World} `{CatalogView World}.

(** The [for] loop of [display_seasons_and_weeks]: a TimeoutException of the
    select or of the week dropdown is the one exception caught, by
    [continue]. *)
Fixpoint season_weeks_loop (season_webelement_options : list string)
  (df : catalog_frame) (v : World) : result catalog_frame * World :=
  match season_webelement_options with
  | [] => (Ok df, v)
  | i :: rest =>
      match dropdown_search_and_select "Season" i v with
      | (Ok _, v1) =>
          match week_options v1 with
          | (Ok weeks_webelement_options, v2) =>
              season_weeks_loop rest (df ++ [(i, weeks_webelement_options)]) v2
          | (Raise TimeoutException, v2) => season_weeks_loop rest df v2
          | (Raise e, v2) => (Raise e, v2)
          end
      | (Raise TimeoutException, v1) => season_weeks_loop rest df v1
      | (Raise e, v1) => (Raise e, v1)
      end
  end.

(** The outer [try] block of [display_seasons_and_weeks], with a new frame. *)
Definition list_seasons_and_weeks (s : session World)
  : result catalog_frame * session World :=
  match season_options (view s) with
  | (Raise e, v1) => (Raise e, with_view s v1)
  | (Ok season_webelement_options, v1) =>
      match season_weeks_loop season_webelement_options [] v1 with
      | (r, v2) => (r, with_view s v2)
      end
  end.

(** [display_seasons_and_weeks]: the frame, or [None] when the budget is
    used up. *)
Equations? display_seasons_and_weeks (max_attempts : Z) (s : session World)
  : result (option catalog_frame) * session World by wf (Z.to_nat max_attempts) lt :=
  display_seasons_and_weeks max_attempts s
    with list_seasons_and_weeks (ensure_scores_page s) => {
    | (Ok df, s1) := (Ok (Some df), s1);
    | (Raise StaleElementReferenceException, s1) with Z_gt_dec max_attempts 0 => {
        | left _ :=
            display_seasons_and_weeks (max_attempts - 1)
              (print (searching_message "" max_attempts) s1);
        | right _ :=
            (Ok None, print "Driver unable to find available options. Try again." s1) };
    | (Raise e, s1) := (Raise e, s1) }.
Proof. lia. Qed.

(** The inner loop of [main] for the season of index [i]: one call of
    [get_game_week_data] with its default budget for every week, the frames
    gathered in [scraper.data].  (The pause between two weeks changes no
    data and is left out.) *)
Fixpoint main_weeks_loop (available_years : list string) (i : nat)
  (weeks : list string) (data : data_frame) (s : session World)
  : result data_frame * session World :=
  match weeks with
  | [] => (Ok data, s)
  | j :: rest =>
      match Py.index available_years i with
      | Raise e => (Raise e, s)
      | Ok year =>
          match get_game_week_data year j default_max_attempts
                  (print (String.append year (String.append " " j)) s) with
          | (Raise e, s1) => (Raise e, s1)
          | (Ok adding_data, s1) =>
              main_weeks_loop available_years i rest (concat data adding_data) s1
          end
      end
  end.

(** The outer loop of [main] over the indices of [range]: after the weeks
    of a season its rows are written to a file and [scraper.data] starts
    empty again. *)
Fixpoint main_seasons_loop (indices : list nat)
  (available_years : list string) (available_weeks : list (list string))
  (files : csv_files) (s : session World)
  : result unit * csv_files * session World :=
  match indices with
  | [] => (Ok tt, files, s)
  | i :: rest =>
      match Py.index available_weeks i with
      | Raise e => (Raise e, files, s)
      | Ok weeks =>
          match main_weeks_loop available_years i weeks [] s with
          | (Raise e, s1) => (Raise e, files, s1)
          | (Ok data, s1) =>
              match Py.index available_years i with
              | Raise e => (Raise e, files, s1)
              | Ok year =>
                  main_seasons_loop rest available_years available_weeks
                    (files ++ [(String.append year "_scores.csv", data)]) s1
              end
          end
      end
  end.

(** [main] of [main.py], from a scraper just made: the files written, and
    how the run ends.  Subscripting the [None] of an exhausted
    [display_seasons_and_weeks] is a TypeError.  (Quitting the driver at the
    end is left out.) *)
Definition main (s : session World) : result unit * csv_files * session World :=
  match display_seasons_and_weeks default_max_attempts (print "STARTING" s) with
  | (Raise e, s1) => (Raise e, [], s1)
  | (Ok None, s1) => (Raise TypeError, [], s1)
  | (Ok (Some available_options), s1) =>
      let available_years := map fst available_options in
      let available_weeks := map snd available_options in
      main_seasons_loop (seq 0 (length available_years - 6))
        available_years available_weeks [] s1
  end.

End Driver.

(** Modelled from the spec: the option lists of the two dropdowns of the
    scripted page (section 6 of the specification, enumerateDropdownOptions),
    which report a stale reference while the page is still re-rendering. *)
Definition page_options (id : string) (p : Page.page) : result (list string) * Page.page :=
  match Page.stale_reports p with
  | S k =>
      (Raise StaleElementReferenceException,
       {| Page.url := Page.url p; Page.stale_reports := k;
          Page.catalog := Page.catalog p; Page.season := Page.season p;
          Page.week := Page.week p; Page.rendered := Page.rendered p |})
  | O => (Ok (Page.options id p), p)
  end.

#[global] Instance page_catalog_view : CatalogView Page.page := {|
  season_options := page_options "Season";
  week_options := page_options "Week"
|}.

(** A page on the scores view with the given catalog. *)
Definition catalog_page (stale : nat) (seasons : list (string * list string))
  (shown : list entry_element) : Page.page :=
  {| Page.url := scores_url; Page.stale_reports := stale;
     Page.catalog := seasons;
     Page.season := None; Page.week := None; Page.rendered := shown |}.

(** ** Notions the properties are stated with *)

(** A token whose first character is an uppercase letter. *)
Definition starts_upper (tok : string) : bool :=
  match tok with
  | EmptyString => false
  | String c _ => Py.isupper c
  end.

(** The last pair of a list of pairs whose away element satisfies [keep]. *)
Definition last_pair (keep : string -> bool) (pairs : list (string * string))
  : option (string * string) :=
  match rev (filter (fun p => keep (fst p)) pairs) with
  | [] => None
  | p :: _ => Some p
  end.

Definition non_numeric (s : string) : bool := negb (Py.isnumeric s).

(** The budgets of [count] invocations in a row, from [max_attempts]
    down. *)
Definition budgets (max_attempts : Z) (count : nat) : list Z :=
  map (fun j => (max_attempts - Z.of_nat j)%Z) (seq 0 count).

(** The rows one turn may add: a game row or, after NoSuchElementException,
    a bye row; both as long as the columns. *)
Definition row_of_entry (chosen_year chosen_week : string) (i : entry_element)
  (row : list pyval) : Prop :=
  length row = length columns
  /\ (game_row chosen_year chosen_week i = Ok row
      \/ (game_row chosen_year chosen_week i = Raise NoSuchElementException
          /\ bye_row chosen_year chosen_week i = Ok row)).

(** The win flags of a row are read off its two scores: the away flag is 1
    exactly when the away score is the greater one, the home flag is 1
    exactly when it is the smaller one. *)
Definition win_flags_follow_scores (row : list pyval) : Prop :=
  exists a h za zh,
    cell "AwayScore" row = Some a /\ cell "HomeScore" row = Some h
    /\ Py.int a = Ok za /\ Py.int h = Ok zh
    /\ cell "AwayWin" row = Some (PInt (if (zh <? za)%Z then 1 else 0))
    /\ cell "HomeWin" row = Some (PInt (if (za <? zh)%Z then 1 else 0)).

(** A row with status CANCELLED holds the sentinel in its day and date and,
    after them, what the classifier returned for the score text of the
    entry, team names included. *)
Definition cancelled_keeps_score_data (chosen_year chosen_week : string)
  (i : entry_element) (row : list pyval) : Prop :=
  cell "GameStatus" row = Some (PStr "CANCELLED") ->
  exists g score_text score_data away_name home_name,
    game i = Some g /\ score g = Some score_text
    /\ get_score_data score_text = Ok score_data
    /\ row = [PStr chosen_year; PStr chosen_week;
              PStr "CANCELLED"; PStr "CANCELLED"; PStr "CANCELLED"] ++ score_data
    /\ cell "AwayTeam" row = Some (PStr away_name)
    /\ cell "HomeTeam" row = Some (PStr home_name).

Definition chiefs_patriots_tokens : list string :=
  ["Kansas"; "City"; "Chiefs"; "11-2"; "24"; "New"; "England"; "Patriots"; "8-5"; "17"].

(** An entry with a played-game element, and an element with neither a game
    nor a bye (a title). *)
Definition played (sad_text scores_text : string) : entry_element :=
  {| game := Some {| status_and_date := Some sad_text; score := Some scores_text |};
     bye := None |}.

Definition title_element : entry_element := {| game := None; bye := None |}.

(** A word as [split] returns them: not empty and without a space. *)
Fixpoint no_space (s : string) : bool :=
  match s with
  | EmptyString => true
  | String c s' => negb (Py.isspace c) && no_space s'
  end.

Definition word (tok : string) : bool :=
  match tok with
  | EmptyString => false
  | String _ _ => no_space tok
  end.

(** A token that is not empty and whose first character is not an uppercase
    letter. *)
Definition starts_other (tok : string) : bool :=
  match tok with
  | EmptyString => false
  | String c _ => negb (Py.isupper c)
  end.

(** A word of a team name, and a word that is none. *)
Definition name_word (tok : string) : bool := word tok && starts_upper tok.

Definition plain_word (tok : string) : bool := word tok && starts_other tok.

(** The list [get_score_data] returns, from its eleven variables. *)
Definition organized_game_data (away_team_name home_team_name : string)
  (v : pair_vars) (wins : Z * Z) (away_seeding home_seeding : pyval)
  (is_postseason : Z) : list pyval :=
  [PStr away_team_name; away_record v; away_score v; PInt (fst wins);
   PStr home_team_name; home_record v; home_score v; PInt (snd wins);
   away_seeding; home_seeding; PInt is_postseason].

(** Both cells of a pair hold [missing], or both hold a str. *)
Definition both_or_neither (missing x y : pyval) : Prop :=
  (x = missing /\ y = missing) \/ (exists a h, x = PStr a /\ y = PStr h).


(** An entry with no played-game element and no bye element. *)
Definition blank (i : entry_element) : bool :=
  match game i, bye i with
  | None, None => true
  | _, _ => false
  end.

(** A browser whose dropdowns are stale for ever and whose page shows its
    entries at once. *)
Record stale_page : Type := { stale_shown : list entry_element }.

#[global] Instance stale_page_view : RemoteView stale_page := {|
  current_url := fun _ => scores_url;
  driver_get := fun _ v => v;
  dropdown_search_and_select := fun _ _ v => (Raise StaleElementReferenceException, v);
  shared_classname := fun v => (Ok "nfl-c-matchup-strip", v);
  enough_elements_present := fun _ _ v => (Ok (stale_shown v), v)
|}.

(** A browser in which every select goes through and the entries never
    appear. *)
Inductive empty_page : Type := Empty_page.

#[global] Instance empty_page_view : RemoteView empty_page := {|
  current_url := fun _ => scores_url;
  driver_get := fun _ v => v;
  dropdown_search_and_select := fun _ _ v => (Ok tt, v);
  shared_classname := fun v => (Ok "nfl-c-matchup-strip", v);
  enough_elements_present := fun _ _ v => (Raise TimeoutException, v)
|}.

(** A browser in which every select goes through and both dropdowns list
    their options at once. *)
Record calm_page : Type := { calm_seasons : list string; calm_weeks : list string }.

#[global] Instance calm_page_view : RemoteView calm_page := {|
  current_url := fun _ => scores_url;
  driver_get := fun _ v => v;
  dropdown_search_and_select := fun _ _ v => (Ok tt, v);
  shared_classname := fun v => (Ok "nfl-c-matchup-strip", v);
  enough_elements_present := fun _ _ v => (Ok [], v)
|}.

#[global] Instance calm_page_catalog : CatalogView calm_page := {|
  season_options := fun v => (Ok (calm_seasons v), v);
  week_options := fun v => (Ok (calm_weeks v), v)
|}.

Section Listing.

Context {World : Type} `{RemoteView World} `{CatalogView World}.



End Listing.

(** The invocations of [select_year_and_week] made by the passes of one call
    of [get_game_week_data], from the number of retries of each pass. *)
Definition pass_budgets (passes : list nat) : list Z :=
  flat_map (fun retries => budgets default_max_attempts (S retries)) passes.


Definition fresh {World : Type} (v : World) : session World :=
  {| view := v; stdout := []; invocations := [] |}.

(** A browser whose dropdowns are stale for ever. *)
#[global] Instance stale_view : RemoteView unit := {|
  current_url := fun _ => scores_url;
  driver_get := fun _ u => u;
  dropdown_search_and_select := fun _ _ u => (Raise StaleElementReferenceException, u);
  shared_classname := fun u => (Raise TimeoutException, u);
  enough_elements_present := fun _ _ u => (Raise TimeoutException, u)
|}.

(** A row of the week frame that is as long as the columns and carries the
    season and week asked for. *)
Definition labelled (chosen_year chosen_week : string) (row : list pyval) : Prop :=
  length row = length columns
  /\ cell "Season" row = Some (PStr chosen_year)
  /\ cell "Week" row = Some (PStr chosen_week).

(** The exceptions neither handler of the scraper names. *)
Definition unhandled : list exn := [TimeoutException; ValueError; IndexError; TypeError].

(** A Super Bowl page of one game. *)
Definition super_bowl_page : list entry_element :=
  [title_element; title_element; title_element;
   played "FINAL - SUN 02/11" "1 Chiefs 25 1 Ravens 22"].

Definition super_bowl_row (chosen_week : string) : list pyval :=
  [PStr "2023"; PStr chosen_week; PStr "FINAL"; PStr "SUN"; PStr "02/11";
   PStr "Chiefs"; PNaN; PStr "25"; PInt 1;
   PStr "Ravens"; PNaN; PStr "22"; PInt 0; PStr "1"; PStr "1"; PInt 1].

(** A file of [main]: named after one season and holding rows of that
    season only. *)
Definition file_of_season (f : string * data_frame) : Prop :=
  exists year,
    fst f = String.append year "_scores.csv"
    /\ Forall (fun row => cell "Season" row = Some (PStr year)) (snd f).

(** A catalog of seven seasons, the first with one week. *)
Definition seven_seasons : list (string * list string) :=
  [("2023", ["Super Bowl"]); ("2022", []); ("2021", []); ("2020", []);
   ("2019", []); ("2018", []); ("2017", [])].

(** Sample weeks, as the scripted page renders them. *)
Definition super_bowl_without_separator : list entry_element :=
  [title_element; title_element; title_element;
   played "FINAL SUN 02/11" "1 Chiefs 25 1 49ers 22"].

Definition week_without_separator : list entry_element :=
  repeat title_element 3
  ++ [played "FINAL SUN 12/10" "Chiefs 11-2 24 Patriots 8-5 17";
      played "FINAL - SUN 12/10" "Bills 10-2 31 Jets 4-8 10"]
  ++ repeat title_element 14.

Definition week_with_separator_only : list entry_element :=
  repeat title_element 3
  ++ [played "FINAL - SUN 12/10" "Bills 10-2 31 Jets 4-8 10"]
  ++ repeat title_element 15.

Definition week_with_tie_and_cancelled : list entry_element :=
  repeat title_element 3
  ++ [played "FINAL - SUN 12/10" "Chiefs 11-2 17 Patriots 8-5 17";
      played "CANCELLED" "Bills 12-3 Bengals 11-4"]
  ++ repeat title_element 14.

Definition bills_jets_row : list pyval :=
  [PStr "2023"; PStr "Week 14"; PStr "FINAL"; PStr "SUN"; PStr "12/10";
   PStr "Bills"; PStr "10-2"; PStr "31"; PInt 1;
   PStr "Jets"; PStr "4-8"; PStr "10"; PInt 0; PNaN; PNaN; PInt 0].

Definition tie_row : list pyval :=
  [PStr "2023"; PStr "Week 14"; PStr "FINAL"; PStr "SUN"; PStr "12/10";
   PStr "Chiefs"; PStr "11-2"; PStr "17"; PInt 0;
   PStr "Patriots"; PStr "8-5"; PStr "17"; PInt 0; PNaN; PNaN; PInt 0].

Definition cancelled_row : list pyval :=
  [PStr "2023"; PStr "Week 14"; PStr "CANCELLED"; PStr "CANCELLED"; PStr "CANCELLED";
   PStr "Bills"; PStr "12-3"; PInt 0; PInt 0;
   PStr "Bengals"; PStr "11-4"; PInt 0; PInt 0; PNaN; PNaN; PInt 0].

(** * Properties *)

(** ** The Python primitives on examples *)

Example split_examples :
  Py.split "  Buffalo Bills   (10-2) " = ["Buffalo"; "Bills"; "(10-2)"]
  /\ Py.split "" = [] /\ Py.split "FINAL - SUN 12/10" = ["FINAL"; "-"; "SUN"; "12/10"].
Proof. repeat split; reflexivity. Qed.

Example int_examples :
  Py.int (PStr "24") = Ok 24%Z /\ Py.int (PStr "1_0") = Ok 10%Z
  /\ Py.int (PStr "-7") = Ok (-7)%Z /\ Py.int (PStr "8-5") = Raise ValueError
  /\ Py.int (PStr "") = Raise ValueError /\ Py.int (PInt 0) = Ok 0%Z.
Proof. repeat split; reflexivity. Qed.

Example strip_ends_examples :
  Py.strip_ends "(10-2)" = "10-2" /\ Py.strip_ends "Bills" = "ill"
  /\ Py.strip_ends "x" = "".
Proof. repeat split; reflexivity. Qed.

(** ** Lists of tokens *)

Lemma count_zero_not_in (x : string) (l : list string) :
  Py.count x l = 0 <-> ~ In x l.
Proof.
  induction l as [|y l IH]; simpl.
  - tauto.
  - destruct (String.eqb_spec y x) as [->|Hne]; simpl.
    + split; [discriminate | intros Hn; exfalso; apply Hn; now left].
    + rewrite IH. split.
      * intros Hn [Heq|Hin]; [now apply Hne | now apply Hn].
      * intros Hn Hin. apply Hn. now right.
Qed.

Lemma remove_first (x : string) (l : list string) :
  In x l ->
  exists before after,
    l = before ++ x :: after /\ ~ In x before /\ Py.remove x l = Ok (before ++ after).
Proof.
  induction l as [|y l IH]; simpl; [tauto|].
  intros Hin. destruct (String.eqb_spec y x) as [->|Hne].
  - exists [], l. simpl. auto.
  - destruct Hin as [Heq|Hin]; [contradiction|].
    destruct (IH Hin) as (b & a & -> & Hnb & ->).
    exists (y :: b), a. simpl. repeat split; auto.
    intros [Heq|Hb]; [now apply Hne | now apply Hnb].
Qed.

Lemma remove_absent (x : string) (l : list string) :
  ~ In x l -> Py.remove x l = Raise ValueError.
Proof.
  induction l as [|y l IH]; simpl; [reflexivity|].
  intros Hn. destruct (String.eqb_spec y x) as [->|Hne].
  - exfalso. apply Hn. now left.
  - rewrite IH; [reflexivity|]. intros Hin. apply Hn. now right.
Qed.

(** ** The merge loop *)

Lemma clean_scores_loop_app (sd1 sd2 multi clean : list string) :
  clean_scores_loop (sd1 ++ sd2) multi clean =
  (st <- clean_scores_loop sd1 multi clean ;; clean_scores_loop sd2 (snd st) (fst st)).
Proof.
  revert multi clean.
  induction sd1 as [|tok sd1 IH]; intros multi clean; simpl; [reflexivity|].
  destruct tok as [|c tok]; simpl; [reflexivity|].
  destruct (Py.isupper c); [apply IH|].
  destruct (0 <? length multi); apply IH.
Qed.

Lemma clean_scores_loop_upper (sd multi clean : list string) :
  Forall (fun tok => starts_upper tok = true) sd ->
  clean_scores_loop sd multi clean = Ok (clean, multi ++ sd).
Proof.
  intros Hup. revert multi.
  induction Hup as [|tok sd Htok _ IH]; intros multi; simpl.
  - now rewrite app_nil_r.
  - destruct tok as [|c tok]; simpl in *; [discriminate|].
    rewrite Htok, IH, <- app_assoc. reflexivity.
Qed.

(** The tokens of a split are not empty, so the merge loop never fails on
    the tokens of a text. *)
Lemma split_from_nonempty (word text : string) :
  Forall (fun tok => tok <> EmptyString) (Py.split_from word text).
Proof.
  assert (Hemit : forall w, Forall (fun tok => tok <> EmptyString) (Py.emit w)).
  { intros [|c w]; simpl; constructor; [discriminate | constructor]. }
  revert word. induction text as [|c text IH]; intros word; simpl.
  - apply Hemit.
  - destruct (Py.isspace c); [|apply IH].
    apply Forall_app. split; [apply Hemit | apply IH].
Qed.

Lemma clean_scores_loop_total (scores_data multi clean : list string) :
  Forall (fun tok => tok <> EmptyString) scores_data ->
  exists st, clean_scores_loop scores_data multi clean = Ok st.
Proof.
  intros Hne. revert multi clean.
  induction Hne as [|tok rest Htok _ IH]; intros multi clean; simpl.
  - eauto.
  - destruct tok as [|c tok]; [contradiction|]. simpl.
    destruct (Py.isupper c); [apply IH|].
    destruct (0 <? length multi); apply IH.
Qed.

(** ** The score and record loop *)

Lemma last_pair_cons keep p pairs :
  last_pair keep (p :: pairs) =
  match last_pair keep pairs with
  | Some q => Some q
  | None => if keep (fst p) then Some p else None
  end.
Proof.
  unfold last_pair. simpl. destruct (keep (fst p)) eqn:Hk; simpl.
  - destruct (rev (filter (fun p0 => keep (fst p0)) pairs)); reflexivity.
  - destruct (rev (filter (fun p0 => keep (fst p0)) pairs)); reflexivity.
Qed.

Lemma scores_records_loop_result (away_team home_team : list string) (v : pair_vars) :
  length away_team <= length home_team ->
  scores_records_loop away_team home_team v =
  Ok {| away_record :=
          match last_pair non_numeric (combine away_team home_team) with
          | Some p => PStr (fst p) | None => away_record v end;
        home_record :=
          match last_pair non_numeric (combine away_team home_team) with
          | Some p => PStr (snd p) | None => home_record v end;
        away_score :=
          match last_pair Py.isnumeric (combine away_team home_team) with
          | Some p => PStr (fst p) | None => away_score v end;
        home_score :=
          match last_pair Py.isnumeric (combine away_team home_team) with
          | Some p => PStr (snd p) | None => home_score v end |}.
Proof.
  revert home_team v.
  induction away_team as [|a away_rest IH]; intros home_team v Hlen.
  - destruct v; reflexivity.
  - destruct home_team as [|h home_rest]; simpl in Hlen; [lia|].
    simpl scores_records_loop. rewrite IH by lia.
    simpl combine. rewrite !last_pair_cons. simpl fst.
    assert (Hnn : non_numeric a = negb (Py.isnumeric a)) by reflexivity.
    rewrite Hnn. clear Hnn.
    destruct (last_pair non_numeric (combine away_rest home_rest)) as [p|];
      destruct (last_pair Py.isnumeric (combine away_rest home_rest)) as [q|];
      destruct (Py.isnumeric a); reflexivity.
Qed.

(** ** Claims on the parsers *)

(** C1.  On a text whose whitespace split is Kansas City Chiefs 11-2 24
    New England Patriots 8-5 17, [get_score_data] returns the away team
    Kansas City Chiefs with record 11-2, score 24 and win flag 1, the home team
    New England Patriots with record 8-5, score 17 and win flag 0, both
    seedings np.nan and the postseason flag 0.  The two scores are returned
    as the tokens read, whose [int] values are 24 and 17. *)
Theorem get_score_data_chiefs_patriots (scores_text : string) :
  Py.split scores_text = chiefs_patriots_tokens ->
  get_score_data scores_text =
    Ok [PStr "Kansas City Chiefs"; PStr "11-2"; PStr "24"; PInt 1;
        PStr "New England Patriots"; PStr "8-5"; PStr "17"; PInt 0;
        PNaN; PNaN; PInt 0]
  /\ Py.int (PStr "24") = Ok 24%Z
  /\ Py.int (PStr "17") = Ok 17%Z.
Proof.
  intros Hsplit. unfold get_score_data. rewrite Hsplit.
  repeat split; reflexivity.
Qed.

Lemma get_score_data_chiefs_patriots_witness :
  Py.split "Kansas City Chiefs 11-2 24 New England Patriots 8-5 17" = chiefs_patriots_tokens
  /\ get_score_data "Kansas City Chiefs 11-2 24 New England Patriots 8-5 17" =
       Ok [PStr "Kansas City Chiefs"; PStr "11-2"; PStr "24"; PInt 1;
           PStr "New England Patriots"; PStr "8-5"; PStr "17"; PInt 0;
           PNaN; PNaN; PInt 0].
Proof.
  split; [reflexivity|].
  apply (get_score_data_chiefs_patriots
           "Kansas City Chiefs 11-2 24 New England Patriots 8-5 17").
  reflexivity.
Defined.

(** C5.  For every token sequence: with one or more tokens CANCELLED the
    status/date parser returns the triple of CANCELLED; with none, and a
    token - present, the first - is the one token removed and the other
    tokens are returned in their order (status, day, date). *)
Theorem game_status_date_rule (sad_data : list string) :
  (1 <= Py.count "CANCELLED" sad_data ->
   game_status_date sad_data = Ok ["CANCELLED"; "CANCELLED"; "CANCELLED"])
  /\ (Py.count "CANCELLED" sad_data = 0 -> In "-" sad_data ->
      exists before after,
        sad_data = before ++ "-" :: after
        /\ ~ In "-" before
        /\ game_status_date sad_data = Ok (before ++ after)
        /\ Py.count "-" (before ++ after) + 1 = Py.count "-" sad_data).
Proof.
  unfold game_status_date. split.
  - intros Hc. destruct (Nat.leb_spec 1 (Py.count "CANCELLED" sad_data)); [reflexivity | lia].
  - intros Hc Hin. rewrite Hc. simpl.
    destruct (remove_first "-" sad_data Hin) as (before & after & Heq & Hnb & Hrm).
    exists before, after. repeat split; auto.
    subst sad_data. clear.
    induction before as [|y before IH]; simpl; [lia|].
    rewrite <- IH. lia.
Qed.

Lemma game_status_date_rule_witness :
  game_status_date ["POSTPONED"; "CANCELLED"] = Ok ["CANCELLED"; "CANCELLED"; "CANCELLED"]
  /\ exists before after,
       ["FINAL"; "-"; "SUN"; "12/10"] = before ++ "-" :: after
       /\ ~ In "-" before
       /\ game_status_date ["FINAL"; "-"; "SUN"; "12/10"] = Ok (before ++ after)
       /\ Py.count "-" (before ++ after) + 1 = Py.count "-" ["FINAL"; "-"; "SUN"; "12/10"].
Proof.
  split.
  - apply (game_status_date_rule ["POSTPONED"; "CANCELLED"]). simpl. lia.
  - apply (game_status_date_rule ["FINAL"; "-"; "SUN"; "12/10"]).
    + reflexivity.
    + simpl. tauto.
Defined.

(** C8.  The number of elements waited for depends on the week label alone:
    4 for Hall Of Fame, Pro Bowl and Super Bowl, 5 for Conference
    Championships, 7 for Divisional Playoffs and for Wild Card Weekend, and
    19 for every other label. *)
Theorem num_score_elements_lookup :
  num_score_elements "Hall Of Fame" = 4%Z
  /\ num_score_elements "Pro Bowl" = 4%Z
  /\ num_score_elements "Super Bowl" = 4%Z
  /\ num_score_elements "Conference Championships" = 5%Z
  /\ num_score_elements "Divisional Playoffs" = 7%Z
  /\ num_score_elements "Wild Card Weekend" = 7%Z
  /\ forall chosen_week : string,
       ~ In chosen_week ["Hall Of Fame"; "Pro Bowl"; "Super Bowl";
                         "Conference Championships"; "Divisional Playoffs";
                         "Wild Card Weekend"] ->
       num_score_elements chosen_week = 19%Z.
Proof.
  repeat (split; [reflexivity|]).
  intros chosen_week Hn. unfold num_score_elements. simpl existsb.
  repeat match goal with
         | |- context [String.eqb chosen_week ?l] =>
             destruct (String.eqb_spec chosen_week l) as [->|_];
             [exfalso; apply Hn; simpl; tauto|]
         end.
  reflexivity.
Qed.

Lemma num_score_elements_lookup_witness :
  num_score_elements "Week 14" = 19%Z.
Proof.
  apply num_score_elements_lookup.
  simpl. intros H.
  repeat (destruct H as [H|H]; [discriminate H|]).
  exact H.
Defined.

(** C9.  The name buffer of the merge loop is added to the cleaned sequence
    only on meeting a token that does not start with an uppercase letter.
    So for every token sequence followed by tokens [trailing] that all start
    with an uppercase letter, the loop ends with the cleaned sequence it has
    without them and with them left in the buffer; the classifier, which
    reads the cleaned sequence only, answers as if they were not there; and
    a sequence of such tokens alone gives the empty cleaned sequence. *)
Theorem trailing_names_dropped (scores_data trailing : list string) :
  Forall (fun tok => starts_upper tok = true) trailing ->
  clean_scores_loop (scores_data ++ trailing) [] [] =
    (st <- clean_scores_loop scores_data [] [] ;; Ok (fst st, snd st ++ trailing))
  /\ organize_game_data (scores_data ++ trailing) = organize_game_data scores_data
  /\ clean_scores_loop trailing [] [] = Ok ([], trailing).
Proof.
  intros Hup.
  assert (Hloop : clean_scores_loop (scores_data ++ trailing) [] [] =
                  (st <- clean_scores_loop scores_data [] [] ;;
                   Ok (fst st, snd st ++ trailing))).
  { rewrite clean_scores_loop_app.
    destruct (clean_scores_loop scores_data [] []) as [[clean multi]|e]; simpl.
    - now apply clean_scores_loop_upper.
    - reflexivity. }
  split; [exact Hloop|]. split.
  - unfold organize_game_data. rewrite Hloop.
    destruct (clean_scores_loop scores_data [] []) as [[clean multi]|e]; reflexivity.
  - now apply (clean_scores_loop_upper trailing [] []).
Qed.

Lemma trailing_names_dropped_witness :
  clean_scores_loop (["Chiefs"; "24"; "Patriots"; "17"] ++ ["New"; "York"]) [] [] =
    Ok (["Chiefs"; "24"; "Patriots"; "17"], ["New"; "York"])
  /\ clean_scores_loop ["New"; "York"] [] [] = Ok ([], ["New"; "York"]).
Proof.
  assert (Hup : Forall (fun tok => starts_upper tok = true) ["New"; "York"]).
  { repeat constructor. }
  destruct (trailing_names_dropped ["Chiefs"; "24"; "Patriots"; "17"] ["New"; "York"] Hup)
    as (Hloop & _ & Honly).
  split; [exact Hloop | exact Honly].
Defined.

(** C10.  Each turn of the score and record loop looks at the away token
    only: when it is numeric both tokens of the pair become the scores, and
    otherwise both become the records, whatever the home token is.  At the
    end the scores are the last pair with a numeric away token (or what they
    were before the loop), and the records are the last pair with another
    away token. *)
Theorem pair_classified_by_away_token
  (a h : string) (away_rest home_rest : list string) (v : pair_vars) :
  length away_rest <= length home_rest ->
  scores_records_loop (a :: away_rest) (h :: home_rest) v =
    scores_records_loop away_rest home_rest
      (if Py.isnumeric a then set_scores a h v else set_records a h v)
  /\ exists v',
       scores_records_loop (a :: away_rest) (h :: home_rest) v = Ok v'
       /\ (away_score v', home_score v') =
            match last_pair Py.isnumeric (combine (a :: away_rest) (h :: home_rest)) with
            | Some p => (PStr (fst p), PStr (snd p))
            | None => (away_score v, home_score v)
            end
       /\ (away_record v', home_record v') =
            match last_pair non_numeric (combine (a :: away_rest) (h :: home_rest)) with
            | Some p => (PStr (fst p), PStr (snd p))
            | None => (away_record v, home_record v)
            end.
Proof.
  intros Hlen. split; [reflexivity|].
  rewrite (scores_records_loop_result (a :: away_rest) (h :: home_rest) v) by (simpl; lia).
  set (pairs := combine (a :: away_rest) (h :: home_rest)).
  eexists. split; [reflexivity|].
  cbn [away_score home_score away_record home_record].
  destruct (last_pair Py.isnumeric pairs); destruct (last_pair non_numeric pairs);
    split; reflexivity.
Qed.

Lemma pair_classified_by_away_token_witness :
  scores_records_loop ["24"; "11-2"; "31"] ["8-5"; "17"; "x"] initial_pair_vars =
    Ok {| away_record := PStr "11-2"; home_record := PStr "17";
          away_score := PStr "31"; home_score := PStr "x" |}.
Proof.
  destruct (pair_classified_by_away_token "24" "8-5" ["11-2"; "31"] ["17"; "x"]
              initial_pair_vars) as (_ & v' & Hrun & Hscores & Hrecords).
  - simpl. lia.
  - rewrite Hrun. destruct v' as [ar hr asc hsc]. simpl in Hscores, Hrecords.
    injection Hscores as -> ->. injection Hrecords as -> ->. reflexivity.
Defined.

(** ** The assembler *)

Lemma bind_ok {A B : Type} (c : result A) (k : A -> result B) (b : B) :
  bind c k = Ok b -> exists a, c = Ok a /\ k a = Ok b.
Proof.
  destruct c as [a|e]; simpl; [|discriminate]. intros Hk. now exists a.
Qed.

Ltac bind_inv H :=
  let x := fresh "x" in
  let E := fresh "E" in
  apply bind_ok in H; destruct H as (x & E & H).

Lemma team_win_check_flags (v : pair_vars) (wins : Z * Z) :
  team_win_check v = Ok wins ->
  exists za zh,
    Py.int (away_score v) = Ok za /\ Py.int (home_score v) = Ok zh
    /\ wins = ((if (zh <? za)%Z then 1 else 0)%Z, (if (za <? zh)%Z then 1 else 0)%Z).
Proof.
  unfold team_win_check. intros Hw.
  bind_inv Hw. bind_inv Hw. exists x, x0. repeat split; auto.
  rewrite Z.gtb_ltb in Hw.
  destruct (Z.ltb_spec x0 x); destruct (Z.ltb_spec x x0);
    try lia; congruence.
Qed.

(** What the classifier returns, when it returns. *)
Lemma organize_game_data_shape (scores_data : list string) (data : list pyval) :
  organize_game_data scores_data = Ok data ->
  exists away_name home_name v wins away_seeding home_seeding is_postseason,
    data = [PStr away_name; away_record v; away_score v; PInt (fst wins);
            PStr home_name; home_record v; home_score v; PInt (snd wins);
            away_seeding; home_seeding; PInt is_postseason]
    /\ team_win_check v = Ok wins.
Proof.
  unfold organize_game_data. intros Hd.
  bind_inv Hd. bind_inv Hd.
  destruct x0 as [[[[post aseed] hseed] away] home].
  do 6 bind_inv Hd.
  injection Hd as <-.
  exists x0, x1, x4, x5, aseed, hseed, post. split; [reflexivity | assumption].
Qed.

Lemma remove_incl (x : string) (l r : list string) :
  Py.remove x l = Ok r -> incl r l.
Proof.
  revert r. induction l as [|y l IH]; simpl; intros r Hr; [discriminate|].
  destruct (String.eqb y x).
  - injection Hr as <-. apply incl_tl, incl_refl.
  - bind_inv Hr. injection Hr as <-.
    apply incl_cons; [now left|]. apply incl_tl. now apply IH.
Qed.

(** The status column holds CANCELLED only through the sentinel triple. *)
Lemma game_status_date_cancelled (sad_data : list string) (day date : string) :
  game_status_date sad_data = Ok ["CANCELLED"; day; date] ->
  day = "CANCELLED" /\ date = "CANCELLED".
Proof.
  unfold game_status_date.
  destruct (Nat.leb_spec 1 (Py.count "CANCELLED" sad_data)) as [_|Hc].
  - intros Hs. injection Hs as <- <-. auto.
  - intros Hr. apply remove_incl in Hr.
    assert (Hin : In "CANCELLED" sad_data) by (apply Hr; now left).
    apply count_zero_not_in in Hin; [contradiction | lia].
Qed.

Lemma process_entries_app (chosen_year chosen_week : string) (df : data_frame)
  (front back : list entry_element) :
  process_entries chosen_year chosen_week df (front ++ back) =
  (df1 <- process_entries chosen_year chosen_week df front ;;
   process_entries chosen_year chosen_week df1 back).
Proof.
  revert df. induction front as [|i front IH]; intros df; simpl; [reflexivity|].
  destruct (process_entry chosen_year chosen_week df i) as [df1|e]; simpl;
    [apply IH | reflexivity].
Qed.

Lemma loc_append_cases (df : data_frame) (row : list pyval) :
  (length row = length columns /\ loc_append df row = Ok (df ++ [row]))
  \/ loc_append df row = Raise ValueError.
Proof.
  unfold loc_append. destruct (Nat.eqb_spec (length row) (length columns)); auto.
Qed.

Lemma process_entry_rows (chosen_year chosen_week : string) (df df1 : data_frame)
  (i : entry_element) :
  process_entry chosen_year chosen_week df i = Ok df1 ->
  df1 = df \/ exists row, df1 = df ++ [row] /\ row_of_entry chosen_year chosen_week i row.
Proof.
  unfold process_entry, row_of_entry.
  destruct (game_row chosen_year chosen_week i) as [row|e] eqn:Hgame; simpl.
  - destruct (loc_append_cases df row) as [[Hlen ->]| ->]; [|discriminate].
    intros Hdf. injection Hdf as <-. right. exists row. auto.
  - destruct e; try discriminate.
    destruct (bye_row chosen_year chosen_week i) as [row|e] eqn:Hbye; simpl.
    + destruct (loc_append_cases df row) as [[Hlen ->]| ->]; [|discriminate].
      intros Hdf. injection Hdf as <-. right. exists row. auto.
    + destruct e; try discriminate. intros Hdf. injection Hdf as <-. now left.
Qed.

Lemma process_entries_rows (chosen_year chosen_week : string)
  (entries : list entry_element) (df df1 : data_frame) (row : list pyval) :
  process_entries chosen_year chosen_week df entries = Ok df1 ->
  In row df1 ->
  In row df \/ exists i, In i entries /\ row_of_entry chosen_year chosen_week i row.
Proof.
  revert df. induction entries as [|i entries IH]; intros df; simpl.
  - intros Hdf. injection Hdf as <-. auto.
  - intros Hdf Hin. bind_inv Hdf.
    destruct (IH _ Hdf Hin) as [Hx|(j & Hj & Hrow)].
    + apply process_entry_rows in E as [->|(r & -> & Hr)]; [now left|].
      apply in_app_or in Hx as [Hx|[<-|[]]]; [now left|].
      right. exists i. auto.
    + right. exists j. auto.
Qed.

Lemma game_row_properties (chosen_year chosen_week : string) (i : entry_element)
  (row : list pyval) :
  game_row chosen_year chosen_week i = Ok row ->
  length row = length columns ->
  win_flags_follow_scores row
  /\ cancelled_keeps_score_data chosen_year chosen_week i row.
Proof.
  unfold game_row. intros Hrow Hlen.
  bind_inv Hrow. rename x into g, E into Hg.
  bind_inv Hrow. rename x into sad_text, E into Hsad_el.
  bind_inv Hrow. rename x into sad_data, E into Hsad.
  bind_inv Hrow. rename x into score_text, E into Hscore_el.
  bind_inv Hrow. rename x into score_data, E into Hscore.
  injection Hrow as <-.
  destruct (organize_game_data_shape _ _ Hscore)
    as (an & hn & v & wins & aseed & hseed & post & -> & Hwins).
  destruct (team_win_check_flags _ _ Hwins) as (za & zh & Ha & Hh & ->).
  unfold Py.insert in *. simpl in Hlen. rewrite length_app, length_map in Hlen.
  simpl in Hlen.
  destruct sad_data as [|status [|day [|date [|extra sad_data]]]]; simpl in Hlen; try lia.
  split.
  - exists (away_score v), (home_score v), za, zh. repeat split; assumption || reflexivity.
  - intros Hstatus. unfold cell in Hstatus. simpl in Hstatus.
    injection Hstatus as ->.
    apply game_status_date_cancelled in Hsad as [-> ->].
    destruct (game i) as [g'|]; [|discriminate]. injection Hg as ->.
    destruct (score g) as [t|] eqn:Hsg; [|discriminate]. injection Hscore_el as ->.
    exists g, score_text. eexists. exists an, hn.
    split; [reflexivity|]. split; [exact Hsg|]. split; [exact Hscore|].
    repeat split.
Qed.

(** C4.  For an entry without a played-game element whose bye element reads
    Buffalo Bills (10-2), the loop adds the row of status BYE whose team is
    the first word, Buffalo, and whose record is the second word without its
    first and last character, ill; the postseason cell is 0.  The code takes
    the first two words for the name and the record: with a name of one word
    (Bills (10-2)) the row has the team Bills and the record 10-2. *)
Theorem bye_row_buffalo_bills (chosen_year chosen_week : string) (df : data_frame)
  (i : entry_element) :
  game i = None ->
  bye i = Some "Buffalo Bills (10-2)" ->
  process_entry chosen_year chosen_week df i =
    Ok (df ++ [[PStr chosen_year; PStr chosen_week; PStr "BYE"; PNone; PNone;
                PStr "Buffalo"; PStr "ill"; PNaN; PNaN;
                PNone; PNaN; PNaN; PNaN; PNaN; PNaN; PInt 0]]).
Proof.
  intros Hgame Hbye. unfold process_entry, game_row, bye_row.
  rewrite Hgame, Hbye. reflexivity.
Qed.

Lemma bye_row_buffalo_bills_witness :
  process_entry "2023" "Week 13" [] {| game := None; bye := Some "Buffalo Bills (10-2)" |} =
    Ok [[PStr "2023"; PStr "Week 13"; PStr "BYE"; PNone; PNone;
         PStr "Buffalo"; PStr "ill"; PNaN; PNaN;
         PNone; PNaN; PNaN; PNaN; PNaN; PNaN; PInt 0]].
Proof.
  apply (bye_row_buffalo_bills "2023" "Week 13" []
           {| game := None; bye := Some "Buffalo Bills (10-2)" |});
    reflexivity.
Defined.

Lemma bye_row_one_word_name (chosen_year chosen_week : string) (df : data_frame) :
  process_entry chosen_year chosen_week df {| game := None; bye := Some "Bills (10-2)" |} =
    Ok (df ++ [[PStr chosen_year; PStr chosen_week; PStr "BYE"; PNone; PNone;
                PStr "Bills"; PStr "10-2"; PNaN; PNaN;
                PNone; PNaN; PNaN; PNaN; PNaN; PNaN; PInt 0]]).
Proof. reflexivity. Qed.

(** ** The retry recursions, unfolded *)

Section ScraperFacts.

Context {World : Type} `{RemoteView World}.

Lemma select_year_and_week_body (chosen_year chosen_week : string)
  (max_attempts : Z) (s : session World) :
  select_year_and_week chosen_year chosen_week max_attempts s =
  match select_dropdowns chosen_year chosen_week
          (ensure_scores_page (enter max_attempts s)) with
  | (Ok _, s1) => (Ok PNone, s1)
  | (Raise StaleElementReferenceException, s1) =>
      if Z_gt_dec max_attempts 0
      then select_year_and_week chosen_year chosen_week (max_attempts - 1)
             (print (searching_message " (select year and week)" max_attempts) s1)
      else (Ok PNone, print "Driver unable to find available options. Try again." s1)
  | (Raise NoSuchElementException, s1) =>
      (Ok PNone, print "This year/week is not an option." s1)
  | (Raise e, s1) => (Raise e, s1)
  end.
Proof.
  simp select_year_and_week.
  destruct (select_dropdowns chosen_year chosen_week
              (ensure_scores_page (enter max_attempts s))) as [[u|e] s1].
  - simp select_year_and_week. reflexivity.
  - destruct e; simp select_year_and_week; try reflexivity.
    destruct (Z_gt_dec max_attempts 0); simp select_year_and_week; reflexivity.
Qed.

Lemma get_game_week_data_body (chosen_year chosen_week : string)
  (max_attempts : Z) (s : session World) :
  get_game_week_data chosen_year chosen_week max_attempts s =
  match open_week chosen_year chosen_week s with
  | (Raise e, s1) => (Raise e, s1)
  | (Ok scores_shared_classname, s1) =>
      match wait_for_entries scores_shared_classname chosen_week s1 with
      | (Ok titles_scores_byes_webelements, s2) =>
          (df <- process_entries chosen_year chosen_week []
                   (skipn 3 titles_scores_byes_webelements) ;;
           Ok (Some df), s2)
      | (Raise TimeoutException, s2) =>
          if Z_gt_dec max_attempts 0
          then get_game_week_data chosen_year chosen_week (max_attempts - 1)
                 (print (searching_message " (get game week data)" max_attempts) s2)
          else (Ok None, print "Unable to get game week data." s2)
      | (Raise e, s2) => (Raise e, s2)
      end
  end.
Proof.
  simp get_game_week_data.
  destruct (open_week chosen_year chosen_week s) as [[cls|e] s1];
    simp get_game_week_data; [|reflexivity].
  destruct (wait_for_entries cls chosen_week s1) as [[els|e] s2];
    simp get_game_week_data; [reflexivity|].
  destruct e; simp get_game_week_data; try reflexivity.
  destruct (Z_gt_dec max_attempts 0); simp get_game_week_data; reflexivity.
Qed.

(** A data frame returned by [get_game_week_data] is the outcome of the
    loop on the entries of some successful wait. *)
Lemma get_game_week_data_frame (chosen_year chosen_week : string)
  (max_attempts : Z) (s s' : session World) (df : data_frame) :
  get_game_week_data chosen_year chosen_week max_attempts s = (Ok (Some df), s') ->
  exists entries, process_entries chosen_year chosen_week [] entries = Ok df.
Proof.
  remember (Z.to_nat max_attempts) as k eqn:Hk.
  revert max_attempts s Hk.
  induction k as [k IH] using lt_wf_ind. intros max_attempts s Hk.
  rewrite get_game_week_data_body.
  destruct (open_week chosen_year chosen_week s) as [[cls|e] s1]; [|discriminate].
  destruct (wait_for_entries cls chosen_week s1) as [[els|e] s2].
  - destruct (process_entries chosen_year chosen_week [] (skipn 3 els)) as [df1|e] eqn:Hp;
      simpl; [|discriminate].
    intros Hr. injection Hr as <- _. eauto.
  - destruct e; try discriminate.
    destruct (Z_gt_dec max_attempts 0) as [Hpos|Hneg]; [|discriminate].
    apply (IH (Z.to_nat (max_attempts - 1))); [lia | reflexivity].
Qed.

(** *** What the steps of [select_year_and_week] leave unchanged *)

Lemma ensure_scores_page_log (s : session World) :
  stdout (ensure_scores_page s) = stdout s
  /\ invocations (ensure_scores_page s) = invocations s.
Proof.
  unfold ensure_scores_page.
  destruct (String.eqb (current_url (view s)) scores_url); auto.
Qed.

Lemma select_dropdowns_log (chosen_year chosen_week : string) (s : session World) :
  stdout (snd (select_dropdowns chosen_year chosen_week s)) = stdout s
  /\ invocations (snd (select_dropdowns chosen_year chosen_week s)) = invocations s.
Proof.
  unfold select_dropdowns.
  destruct (dropdown_search_and_select "Season" chosen_year (view s)) as [[u|e] v1].
  - destruct (dropdown_search_and_select "Week" chosen_week v1) as [r v2]. auto.
  - auto.
Qed.

Lemma attempt_log (chosen_year chosen_week : string) (max_attempts : Z)
  (s s1 : session World) (r : result unit) :
  select_dropdowns chosen_year chosen_week
    (ensure_scores_page (enter max_attempts s)) = (r, s1) ->
  stdout s1 = stdout s /\ invocations s1 = invocations s ++ [max_attempts].
Proof.
  intros Hatt.
  destruct (select_dropdowns_log chosen_year chosen_week
              (ensure_scores_page (enter max_attempts s))) as [Hout Hinv].
  destruct (ensure_scores_page_log (enter max_attempts s)) as [Hout0 Hinv0].
  rewrite Hatt in Hout, Hinv. simpl in Hout, Hinv.
  rewrite Hout, Hinv, Hout0, Hinv0. auto.
Qed.

Lemma budgets_step (max_attempts : Z) (count : nat) :
  budgets max_attempts (S count) = max_attempts :: budgets (max_attempts - 1) count.
Proof.
  unfold budgets. rewrite <- cons_seq, <- seq_shift. simpl.
  rewrite Z.sub_0_r, map_map. f_equal.
  apply map_ext. intros j. lia.
Qed.

Lemma select_year_and_week_invocations (chosen_year chosen_week : string)
  (max_attempts : Z) (s : session World) :
  exists retries,
    retries <= Z.to_nat max_attempts
    /\ invocations (snd (select_year_and_week chosen_year chosen_week max_attempts s)) =
         invocations s ++ budgets max_attempts (S retries).
Proof.
  remember (Z.to_nat max_attempts) as k eqn:Hk.
  revert max_attempts s Hk.
  induction k as [|k IH]; intros max_attempts s Hk;
    rewrite select_year_and_week_body;
    destruct (select_dropdowns chosen_year chosen_week
                (ensure_scores_page (enter max_attempts s))) as [r s1] eqn:Hatt;
    destruct (attempt_log _ _ _ _ _ _ Hatt) as [_ Hinv];
    assert (Hone : budgets max_attempts 1 = [max_attempts])
      by (unfold budgets; simpl; now rewrite Z.sub_0_r).
  - exists 0. split; [lia|]. rewrite Hone.
    destruct r as [u|e]; [exact Hinv|].
    destruct e; try exact Hinv.
    destruct (Z_gt_dec max_attempts 0); [lia | exact Hinv].
  - destruct r as [u|e]; [exists 0; rewrite Hone; split; [lia | exact Hinv]|].
    destruct e; try (exists 0; rewrite Hone; split; [lia | exact Hinv]).
    destruct (Z_gt_dec max_attempts 0) as [Hpos|Hneg];
      [|exists 0; rewrite Hone; split; [lia | exact Hinv]].
    destruct (IH (max_attempts - 1)%Z
                (print (searching_message " (select year and week)" max_attempts) s1))
      as (retries & Hle & Hrun); [lia|].
    exists (S retries). split; [lia|].
    rewrite Hrun, (budgets_step max_attempts). simpl invocations.
    rewrite Hinv, <- app_assoc. reflexivity.
Qed.

(** *** Claims on navigation and on the rows of a week *)

(** C6.  For a budget [max_attempts] of 0 or more: when the selects of an
    invocation report a stale element, [select_year_and_week] with a
    budget above 0 prints the searching line and is the same call with the
    budget less 1, the same season and week, on the state the failed
    selects left; with the budget 0 it prints that no options were found
    and returns.  The budgets of the invocations a call makes are
    [max_attempts], [max_attempts - 1], ... : at most [max_attempts + 1] of
    them.  The default budget is 5. *)
Theorem select_year_and_week_bounded_retry (chosen_year chosen_week : string)
  (max_attempts : Z) (s : session World) :
  (0 <= max_attempts)%Z ->
  (forall s1,
      select_dropdowns chosen_year chosen_week
        (ensure_scores_page (enter max_attempts s)) =
        (Raise StaleElementReferenceException, s1) ->
      ((0 < max_attempts)%Z ->
       select_year_and_week chosen_year chosen_week max_attempts s =
       select_year_and_week chosen_year chosen_week (max_attempts - 1)
         (print (searching_message " (select year and week)" max_attempts) s1))
      /\ (max_attempts = 0%Z ->
          select_year_and_week chosen_year chosen_week max_attempts s =
          (Ok PNone, print "Driver unable to find available options. Try again." s1)))
  /\ (exists retries,
        retries <= Z.to_nat max_attempts
        /\ invocations (snd (select_year_and_week chosen_year chosen_week max_attempts s)) =
             invocations s ++ budgets max_attempts (S retries))
  /\ default_max_attempts = 5%Z.
Proof.
  intros Hbudget. split; [|split].
  - intros s1 Hstale. rewrite select_year_and_week_body, Hstale.
    destruct (Z_gt_dec max_attempts 0) as [Hpos|Hzero]; split; intros Hn;
      reflexivity || lia.
  - apply select_year_and_week_invocations.
  - reflexivity.
Qed.

(** C2, as the code has it.  An entry with a played-game element whose
    status and date tokens hold neither CANCELLED nor - makes
    [get_game_status_date] raise ValueError.  The loop catches
    NoSuchElementException only: when the entries before that one went
    through, the turn of that entry raises the ValueError and so does the
    whole call of [get_game_week_data]; no data frame is returned. *)
Theorem missing_separator_ends_call (chosen_year chosen_week : string)
  (max_attempts : Z) (s s1 s2 : session World) (scores_shared_classname : string)
  (titles_scores_byes_webelements front rest : list entry_element)
  (i : entry_element) (g : game_element) (sad_text : string) (df : data_frame) :
  open_week chosen_year chosen_week s = (Ok scores_shared_classname, s1) ->
  wait_for_entries scores_shared_classname chosen_week s1 =
    (Ok titles_scores_byes_webelements, s2) ->
  skipn 3 titles_scores_byes_webelements = front ++ i :: rest ->
  process_entries chosen_year chosen_week [] front = Ok df ->
  game i = Some g ->
  status_and_date g = Some sad_text ->
  Py.count "CANCELLED" (Py.split sad_text) = 0 ->
  Py.count "-" (Py.split sad_text) = 0 ->
  get_game_status_date sad_text = Raise ValueError
  /\ process_entry chosen_year chosen_week df i = Raise ValueError
  /\ get_game_week_data chosen_year chosen_week max_attempts s = (Raise ValueError, s2).
Proof.
  intros Hopen Hwait Hskip Hfront Hgame Hsad Hcancelled Hdash.
  assert (Hparse : get_game_status_date sad_text = Raise ValueError).
  { unfold get_game_status_date, game_status_date. rewrite Hcancelled. simpl.
    apply remove_absent. now apply count_zero_not_in. }
  assert (Hturn : process_entry chosen_year chosen_week df i = Raise ValueError).
  { unfold process_entry, game_row. rewrite Hgame. simpl.
    rewrite Hsad. simpl. rewrite Hparse. reflexivity. }
  repeat split; auto.
  rewrite get_game_week_data_body, Hopen, Hwait, Hskip, process_entries_app, Hfront.
  simpl. rewrite Hturn. reflexivity.
Qed.

(** C3, as the code has it.  Every row of a data frame returned by
    [get_game_week_data] is a game row or a bye row of some entry.  In a
    game row the two win flags follow the scores: the away flag is 1 when
    the away score is greater, the home flag is 1 when it is smaller, and
    both are 0 when the scores are equal.  A game row with status CANCELLED
    holds CANCELLED as day and date and then the data the classifier
    returned for the score text of the entry. *)
Theorem week_rows_flags_and_cancelled (chosen_year chosen_week : string)
  (max_attempts : Z) (s s' : session World) (df : data_frame) (row : list pyval) :
  get_game_week_data chosen_year chosen_week max_attempts s = (Ok (Some df), s') ->
  In row df ->
  (exists i,
      game_row chosen_year chosen_week i = Ok row
      /\ win_flags_follow_scores row
      /\ cancelled_keeps_score_data chosen_year chosen_week i row)
  \/ (exists i,
        game_row chosen_year chosen_week i = Raise NoSuchElementException
        /\ bye_row chosen_year chosen_week i = Ok row).
Proof.
  intros Hcall Hin.
  destruct (get_game_week_data_frame _ _ _ _ _ _ Hcall) as (entries & Hloop).
  destruct (process_entries_rows _ _ _ _ _ _ Hloop Hin) as [[]|(i & _ & Hlen & Hrow)].
  destruct Hrow as [Hgame|[Hgame Hbye]].
  - left. exists i. split; [exact Hgame|].
    now apply game_row_properties.
  - right. exists i. auto.
Qed.

End ScraperFacts.

(** ** The wait around a select *)

Lemma wait_until_not_missing {World A : Type} (polls : nat)
  (method : World -> result (option A) * World) (v : World) :
  fst (wait_until polls method v) <> Raise NoSuchElementException.
Proof.
  revert v. induction polls as [|polls IH]; intros v; simpl;
    destruct (method v) as [[[value|]|e] v1]; simpl;
    try discriminate; try apply IH;
    destruct e; simpl; try discriminate; apply IH.
Qed.

Lemma wait_until_missing {World A : Type} (polls : nat)
  (method : World -> result (option A) * World) (v : World) :
  missing_at_every_poll polls method v ->
  exists v', wait_until polls method v = (Raise TimeoutException, v').
Proof.
  revert v. induction polls as [|polls IH]; intros v (v1 & Hv & Hrest); simpl;
    rewrite Hv.
  - eauto.
  - now apply IH.
Qed.

Section WaitFacts.

Context {World : Type} `{RemoteView World}.

Variable condition : string -> string -> World -> result (option unit) * World.
Variable polls : nat.

(** C7.  The select of a dropdown is made through [wait.until], which takes
    the NoSuchElementException of a missing option for a reason to try
    again.  So no select of [select_year_and_week] ever raises that
    exception and the clause that reports a missing year or week is never
    entered; and when the season, or after it the week, is missing at every
    evaluation the wait makes, the call raises TimeoutException, for any
    budget, having printed nothing and with its own invocation the only
    one. *)
Theorem select_year_and_week_missing_option_times_out
  (chosen_year chosen_week : string) (max_attempts : Z) (s : session World) :
  (forall id label v,
      dropdown_search_and_select id label v = wait_until polls (condition id label) v) ->
  (missing_at_every_poll polls (condition "Season" chosen_year)
     (view (ensure_scores_page (enter max_attempts s)))
   \/ exists u v1,
        dropdown_search_and_select "Season" chosen_year
          (view (ensure_scores_page (enter max_attempts s))) = (Ok u, v1)
        /\ missing_at_every_poll polls (condition "Week" chosen_week) v1) ->
  (forall s0,
      fst (select_dropdowns chosen_year chosen_week s0) <> Raise NoSuchElementException)
  /\ exists s1,
       select_year_and_week chosen_year chosen_week max_attempts s =
         (Raise TimeoutException, s1)
       /\ stdout s1 = stdout s
       /\ invocations s1 = invocations s ++ [max_attempts].
Proof.
  intros Hwait Hmissing. split.
  - intros s0. unfold select_dropdowns.
    pose proof (wait_until_not_missing polls (condition "Season" chosen_year) (view s0))
      as Hseason.
    rewrite <- Hwait in Hseason.
    destruct (dropdown_search_and_select "Season" chosen_year (view s0)) as [[u|e] v1];
      simpl in *; [|exact Hseason].
    pose proof (wait_until_not_missing polls (condition "Week" chosen_week) v1) as Hweek.
    rewrite <- Hwait in Hweek.
    destruct (dropdown_search_and_select "Week" chosen_week v1) as [r v2]. exact Hweek.
  - assert (Hatt : exists s1,
               select_dropdowns chosen_year chosen_week
                 (ensure_scores_page (enter max_attempts s)) =
               (Raise TimeoutException, s1)).
    { unfold select_dropdowns.
      destruct Hmissing as [Hseason|(u & v1 & Hseason & Hweek)].
      - apply wait_until_missing in Hseason as (v' & Hseason).
        rewrite Hwait, Hseason. eauto.
      - apply wait_until_missing in Hweek as (v' & Hweek).
        rewrite Hseason, Hwait, Hweek. eauto. }
    destruct Hatt as (s1 & Hatt).
    destruct (attempt_log _ _ _ _ _ _ Hatt) as [Hout Hinv].
    exists s1. rewrite select_year_and_week_body, Hatt. auto.
Qed.

End WaitFacts.

(** ** The claims on the scripted page *)

Lemma page_select_absent (id label : string) (p : Page.page) :
  Page.stale_reports p = 0 ->
  ~ In label (Page.options id p) ->
  Page.select id label p = (Raise NoSuchElementException, p).
Proof.
  intros Hstale Habsent. unfold Page.select. rewrite Hstale.
  destruct (existsb (String.eqb label) (Page.options id p)) eqn:Hfound; [|reflexivity].
  apply existsb_exists in Hfound as (x & Hin & Heq).
  apply String.eqb_eq in Heq. subst x. contradiction.
Qed.

Lemma page_missing_at_every_poll (id label : string) (p : Page.page) (polls : nat) :
  Page.stale_reports p = 0 ->
  ~ In label (Page.options id p) ->
  missing_at_every_poll polls (Page.condition id label) p.
Proof.
  intros Hstale Habsent.
  assert (Hone : Page.condition id label p = (Raise NoSuchElementException, p)).
  { unfold Page.condition. now rewrite page_select_absent. }
  induction polls as [|polls IH]; simpl; exists p; auto.
Qed.

Lemma select_year_and_week_missing_option_times_out_witness :
  ~ In "Week 15" (Page.options "Week" (Page.choose "Season" "2023" (Page.scores_page 0 [])))
  /\ exists s1,
       select_year_and_week "2023" "Week 15" 5 (Page.start (Page.scores_page 0 [])) =
         (Raise TimeoutException, s1)
       /\ stdout s1 = []
       /\ invocations s1 = [] ++ [5%Z].
Proof.
  assert (Habsent : ~ In "Week 15"
                      (Page.options "Week"
                         (Page.choose "Season" "2023" (Page.scores_page 0 [])))).
  { simpl. intros [Hw|[Hw|[]]]; discriminate Hw. }
  split; [exact Habsent|].
  apply (select_year_and_week_missing_option_times_out Page.condition Page.polls
           "2023" "Week 15" 5 (Page.start (Page.scores_page 0 []))).
  - intros id label v. reflexivity.
  - right. exists tt, (Page.choose "Season" "2023" (Page.scores_page 0 [])).
    split; [reflexivity|].
    apply page_missing_at_every_poll; [reflexivity | exact Habsent].
Defined.

Lemma select_year_and_week_bounded_retry_witness :
  select_year_and_week "2023" "Week 14" 2 (Page.start (Page.scores_page 7 [])) =
    select_year_and_week "2023" "Week 14" (2 - 1)
      (print (searching_message " (select year and week)" 2)
         {| view := Page.scores_page 6 []; stdout := []; invocations := [2%Z] |})
  /\ select_year_and_week "2023" "Week 14" 0 (Page.start (Page.scores_page 7 [])) =
       (Ok PNone,
        print "Driver unable to find available options. Try again."
          {| view := Page.scores_page 6 []; stdout := []; invocations := [0%Z] |})
  /\ exists retries,
       retries <= 2
       /\ invocations (snd (select_year_and_week "2023" "Week 14" 2
                              (Page.start (Page.scores_page 7 [])))) =
            [] ++ budgets 2 (S retries).
Proof.
  destruct (select_year_and_week_bounded_retry "2023" "Week 14" 2
              (Page.start (Page.scores_page 7 []))) as (Hstale & Hbound & _); [lia|].
  destruct (select_year_and_week_bounded_retry "2023" "Week 14" 0
              (Page.start (Page.scores_page 7 []))) as (Hzero & _ & _); [lia|].
  split; [|split].
  - apply Hstale; [reflexivity | lia].
  - apply Hzero; reflexivity.
  - exact Hbound.
Defined.

Example select_year_and_week_exhausted :
  select_year_and_week "2023" "Week 14" 2 (Page.start (Page.scores_page 7 [])) =
  (Ok PNone,
   {| view := Page.scores_page 4 [];
      stdout := ["SEARCHING, attempting 2 more times (select year and week)";
                 "SEARCHING, attempting 1 more times (select year and week)";
                 "Driver unable to find available options. Try again."];
      invocations := [2; 1; 0]%Z |}).
Proof. vm_compute. reflexivity. Qed.

Lemma missing_separator_ends_call_witness :
  fst (get_game_week_data "2023" "Super Bowl" 5
         (Page.start (Page.scores_page 0 super_bowl_without_separator))) =
  Raise ValueError.
Proof.
  refine (f_equal fst
            (proj2 (proj2
               (missing_separator_ends_call "2023" "Super Bowl" 5
                  (Page.start (Page.scores_page 0 super_bowl_without_separator))
                  _ _ _ _ [] [] (played "FINAL SUN 02/11" "1 Chiefs 25 1 49ers 22")
                  {| status_and_date := Some "FINAL SUN 02/11";
                     score := Some "1 Chiefs 25 1 49ers 22" |}
                  "FINAL SUN 02/11" [] _ _ _ _ _ _ _ _)))); reflexivity.
Defined.

(** A week of two games, the first without the separator: the call raises
    ValueError, where leaving that entry out gives the row of the other
    game.  So an entry without the separator is not skipped. *)
Lemma missing_separator_not_skipped :
  Py.count "-" (Py.split "FINAL SUN 12/10") = 0
  /\ process_entries "2023" "Week 14" []
       [played "FINAL SUN 12/10" "Chiefs 11-2 24 Patriots 8-5 17";
        played "FINAL - SUN 12/10" "Bills 10-2 31 Jets 4-8 10"] =
       Raise ValueError
  /\ process_entries "2023" "Week 14" []
       [played "FINAL - SUN 12/10" "Bills 10-2 31 Jets 4-8 10"] =
       Ok [bills_jets_row]
  /\ fst (get_game_week_data "2023" "Week 14" 5
            (Page.start (Page.scores_page 0 week_without_separator))) =
       Raise ValueError
  /\ fst (get_game_week_data "2023" "Week 14" 5
            (Page.start (Page.scores_page 0 week_with_separator_only))) =
       Ok (Some [bills_jets_row])
  /\ ~ (forall (chosen_year chosen_week : string) (df : data_frame)
               (i : entry_element) (rest : list entry_element)
               (g : game_element) (sad_text : string),
           game i = Some g ->
           status_and_date g = Some sad_text ->
           Py.count "-" (Py.split sad_text) = 0 ->
           process_entries chosen_year chosen_week df (i :: rest) =
           process_entries chosen_year chosen_week df rest).
Proof.
  split; [reflexivity|].
  do 4 (split; [vm_compute; reflexivity|]).
  intros Hskip.
  specialize (Hskip "2023" "Week 14" []
                (played "FINAL SUN 12/10" "Chiefs 11-2 24 Patriots 8-5 17") []
                {| status_and_date := Some "FINAL SUN 12/10";
                   score := Some "Chiefs 11-2 24 Patriots 8-5 17" |}
                "FINAL SUN 12/10" eq_refl eq_refl eq_refl).
  vm_compute in Hskip. discriminate Hskip.
Qed.

(** A week with a tie and a cancelled game: the row of the tie has status
    FINAL and both win flags 0; the row of the cancelled game holds the team
    names and records of its score text, scores 0 and flags 0. *)
Lemma tie_and_cancelled_rows :
  process_entries "2023" "Week 14" []
    [played "FINAL - SUN 12/10" "Chiefs 11-2 17 Patriots 8-5 17";
     played "CANCELLED" "Bills 12-3 Bengals 11-4"] =
    Ok [tie_row; cancelled_row]
  /\ fst (get_game_week_data "2023" "Week 14" 5
            (Page.start (Page.scores_page 0 week_with_tie_and_cancelled))) =
       Ok (Some [tie_row; cancelled_row])
  /\ cell "GameStatus" tie_row = Some (PStr "FINAL")
  /\ cell "AwayWin" tie_row = Some (PInt 0)
  /\ cell "HomeWin" tie_row = Some (PInt 0)
  /\ cell "GameStatus" cancelled_row = Some (PStr "CANCELLED")
  /\ cell "AwayTeam" cancelled_row = Some (PStr "Bills")
  /\ cell "AwayRecord" cancelled_row = Some (PStr "12-3")
  /\ cell "AwayScore" cancelled_row = Some (PInt 0)
  /\ cell "HomeTeam" cancelled_row = Some (PStr "Bengals")
  /\ cell "HomeRecord" cancelled_row = Some (PStr "11-4").
Proof.
  split; [vm_compute; reflexivity|].
  split; [vm_compute; reflexivity|].
  repeat split; reflexivity.
Qed.

Lemma week_rows_flags_and_cancelled_witness :
  (exists i,
      game_row "2023" "Week 14" i = Ok cancelled_row
      /\ win_flags_follow_scores cancelled_row
      /\ cancelled_keeps_score_data "2023" "Week 14" i cancelled_row)
  \/ (exists i,
        game_row "2023" "Week 14" i = Raise NoSuchElementException
        /\ bye_row "2023" "Week 14" i = Ok cancelled_row).
Proof.
  refine (week_rows_flags_and_cancelled "2023" "Week 14" 5
            (Page.start (Page.scores_page 0 week_with_tie_and_cancelled))
            {| view := Page.choose "Week" "Week 14"
                         (Page.choose "Season" "2023"
                            (Page.scores_page 0 week_with_tie_and_cancelled));
               stdout := []; invocations := [5%Z] |}
            [tie_row; cancelled_row] cancelled_row _ _).
  - vm_compute. reflexivity.
  - simpl. auto.
Defined.


(** * Further properties of the scraper *)

(** ** Words, split and join *)

Lemma append_empty_r (s : string) : String.append s EmptyString = s.
Proof. induction s as [|c s IH]; simpl; [reflexivity | now rewrite IH]. Qed.

Lemma append_assoc (a b c : string) :
  String.append (String.append a b) c = String.append a (String.append b c).
Proof. induction a as [|x a IH]; simpl; [reflexivity | now rewrite IH]. Qed.

Lemma split_from_no_space (tok pending rest : string) :
  no_space tok = true ->
  Py.split_from pending (String.append tok rest) =
  Py.split_from (String.append pending tok) rest.
Proof.
  revert pending. induction tok as [|c tok IH]; intros pending Hns; simpl.
  - now rewrite append_empty_r.
  - simpl in Hns. apply andb_prop in Hns as [Hc Hns].
    apply negb_true_iff in Hc. rewrite Hc, (IH _ Hns), append_assoc. reflexivity.
Qed.

Lemma word_no_space (tok : string) : word tok = true -> no_space tok = true.
Proof. destruct tok; [discriminate | auto]. Qed.

Lemma emit_word (tok : string) : word tok = true -> Py.emit tok = [tok].
Proof. destruct tok; [discriminate | reflexivity]. Qed.

(** Splitting the words joined by single spaces gives the words back. *)
Lemma split_join_words (words : list string) :
  Forall (fun tok => word tok = true) words ->
  Py.split (Py.join " " words) = words.
Proof.
  unfold Py.split, Py.join.
  induction 1 as [|tok words Htok Hwords IH]; [reflexivity|].
  destruct words as [|next words].
  - simpl. rewrite <- (append_empty_r tok) at 1.
    rewrite split_from_no_space by now apply word_no_space.
    simpl. now apply emit_word.
  - change (String.concat " " (tok :: next :: words))
      with (String.append tok (String " " (String.concat " " (next :: words)))).
    rewrite split_from_no_space by now apply word_no_space.
    change (Py.split_from (String.append EmptyString tok)
              (String " " (String.concat " " (next :: words))))
      with (Py.emit tok ++ Py.split_from EmptyString (String.concat " " (next :: words))).
    rewrite IH, emit_word by assumption. reflexivity.
Qed.

(** ** The classifier on well-formed sides *)

Lemma upper_not_numeric (tok : string) :
  starts_upper tok = true -> Py.isnumeric tok = false.
Proof.
  destruct tok as [|c tok]; [discriminate|]. simpl.
  unfold Py.isupper, Py.isdigit. intros Hup.
  destruct (Nat.leb_spec 48 (nat_of_ascii c)); [|reflexivity].
  destruct (Nat.leb_spec (nat_of_ascii c) 57); [|reflexivity].
  destruct (Nat.leb_spec 65 (nat_of_ascii c)); [lia | discriminate].
Qed.

Lemma join_starts_upper (names : list string) :
  names <> [] ->
  Forall (fun tok => starts_upper tok = true) names ->
  starts_upper (Py.join " " names) = true.
Proof.
  intros Hne Hup. destruct names as [|name names]; [contradiction|].
  inversion Hup as [|? ? Hname _]; subst.
  destruct name as [|c name]; [discriminate|].
  destruct names; exact Hname.
Qed.

Lemma clean_scores_loop_others (others more clean : list string) :
  Forall (fun tok => starts_other tok = true) others ->
  clean_scores_loop (others ++ more) [] clean =
  clean_scores_loop more [] (clean ++ others).
Proof.
  intros Hoth. revert clean.
  induction Hoth as [|tok others Htok _ IH]; intros clean; simpl.
  - now rewrite app_nil_r.
  - destruct tok as [|c tok]; [discriminate|]. simpl in *.
    apply negb_true_iff in Htok. rewrite Htok, IH, <- app_assoc. reflexivity.
Qed.

(** One side of the text: the words of the name become one element, the
    tokens after it follow. *)
Lemma clean_scores_loop_side (names others more clean : list string) :
  names <> [] ->
  Forall (fun tok => starts_upper tok = true) names ->
  others <> [] ->
  Forall (fun tok => starts_other tok = true) others ->
  clean_scores_loop (names ++ others ++ more) [] clean =
  clean_scores_loop more [] (clean ++ Py.join " " names :: others).
Proof.
  intros Hnames Hup Hothers Hoth.
  rewrite clean_scores_loop_app, (clean_scores_loop_upper names [] clean Hup).
  simpl bind. simpl fst. simpl snd.
  destruct others as [|tok others]; [contradiction|].
  inversion Hoth as [|? ? Htok Hrest]; subst.
  destruct tok as [|c tok]; [discriminate|]. simpl in Htok.
  apply negb_true_iff in Htok.
  simpl. rewrite Htok.
  destruct names as [|name names]; [contradiction|]. simpl length. simpl Nat.ltb.
  cbv iota. rewrite clean_scores_loop_others by assumption.
  rewrite <- !app_assoc. reflexivity.
Qed.

Lemma halves {A : Type} (l1 l2 : list A) :
  length l1 = length l2 ->
  firstn (length (l1 ++ l2) / 2) (l1 ++ l2) = l1
  /\ skipn (length (l1 ++ l2) / 2) (l1 ++ l2) = l2.
Proof.
  intros Hlen.
  assert (Hhalf : length (l1 ++ l2) / 2 = length l1).
  { rewrite length_app, <- Hlen.
    replace (length l1 + length l1) with (length l1 * 2) by lia.
    now apply Nat.div_mul. }
  rewrite Hhalf. split.
  - rewrite firstn_app, Nat.sub_diag, firstn_all. simpl. now rewrite app_nil_r.
  - rewrite skipn_app, Nat.sub_diag, skipn_all. reflexivity.
Qed.

(** The classifier once the cleaned sequence is known to be two sides of
    the same length. *)
Lemma organize_game_data_halves (scores_data away home multi : list string) :
  clean_scores_loop scores_data [] [] = Ok (away ++ home, multi) ->
  length away = length home ->
  organize_game_data scores_data =
  (post <- postseason_check away home ;;
   let '(is_postseason, away_seeding, home_seeding, away_team, home_team) := post in
   away_team_name <- Py.head away_team ;;
   home_team_name <- Py.head home_team ;;
   away_team <- Py.pop0 away_team ;;
   home_team <- Py.pop0 home_team ;;
   v <- scores_records_loop away_team home_team initial_pair_vars ;;
   wins <- team_win_check v ;;
   Ok (organized_game_data away_team_name home_team_name v wins
         away_seeding home_seeding is_postseason)).
Proof.
  intros Hclean Hlen. unfold organize_game_data. rewrite Hclean.
  unfold bind at 1. cbv beta zeta. simpl fst.
  destruct (halves away home Hlen) as [-> ->]. reflexivity.
Qed.

Lemma organize_game_data_regular (away_names home_names away_rest home_rest : list string) :
  away_names <> [] -> home_names <> [] ->
  Forall (fun tok => starts_upper tok = true) away_names ->
  Forall (fun tok => starts_upper tok = true) home_names ->
  away_rest <> [] ->
  Forall (fun tok => starts_other tok = true) away_rest ->
  Forall (fun tok => starts_other tok = true) home_rest ->
  length away_rest = length home_rest ->
  organize_game_data (away_names ++ away_rest ++ home_names ++ home_rest) =
  (v <- scores_records_loop away_rest home_rest initial_pair_vars ;;
   wins <- team_win_check v ;;
   Ok (organized_game_data (Py.join " " away_names) (Py.join " " home_names)
         v wins PNaN PNaN 0)).
Proof.
  intros Han Hhn Hau Hhu Har Hao Hho Hlen.
  assert (Hhr : home_rest <> []).
  { destruct home_rest; [|discriminate]. destruct away_rest; [contradiction | discriminate]. }
  rewrite (organize_game_data_halves _
             (Py.join " " away_names :: away_rest)
             (Py.join " " home_names :: home_rest) []).
  - unfold postseason_check. simpl Py.head. simpl bind.
    rewrite (upper_not_numeric _ (join_starts_upper _ Han Hau)). reflexivity.
  - rewrite clean_scores_loop_side by assumption.
    rewrite <- (app_nil_r home_rest) at 1.
    rewrite clean_scores_loop_side by assumption. reflexivity.
  - simpl. now rewrite Hlen.
Qed.

Lemma organize_game_data_postseason
  (away_seed home_seed : string) (away_names home_names away_rest home_rest : list string) :
  Py.isnumeric away_seed = true -> starts_other home_seed = true ->
  away_names <> [] -> home_names <> [] ->
  Forall (fun tok => starts_upper tok = true) away_names ->
  Forall (fun tok => starts_upper tok = true) home_names ->
  away_rest <> [] ->
  Forall (fun tok => starts_other tok = true) away_rest ->
  Forall (fun tok => starts_other tok = true) home_rest ->
  length away_rest = length home_rest ->
  organize_game_data
    (away_seed :: away_names ++ away_rest ++ home_seed :: home_names ++ home_rest) =
  (v <- scores_records_loop away_rest home_rest initial_pair_vars ;;
   wins <- team_win_check v ;;
   Ok (organized_game_data (Py.join " " away_names) (Py.join " " home_names)
         v wins (PStr away_seed) (PStr home_seed) 1)).
Proof.
  intros Has Hhs Han Hhn Hau Hhu Har Hao Hho Hlen.
  assert (Hhr : home_rest <> []).
  { destruct home_rest; [|discriminate]. destruct away_rest; [contradiction | discriminate]. }
  assert (Haso : starts_other away_seed = true).
  { destruct away_seed as [|c t]; [discriminate|]. simpl.
    destruct (Py.isupper c) eqn:Hc; [|reflexivity].
    assert (Hn := upper_not_numeric (String c t) Hc). congruence. }
  rewrite (organize_game_data_halves _
             (away_seed :: Py.join " " away_names :: away_rest)
             (home_seed :: Py.join " " home_names :: home_rest) []).
  - unfold postseason_check. simpl Py.head. simpl bind. rewrite Has. reflexivity.
  - change (away_seed :: away_names ++ away_rest ++ home_seed :: home_names ++ home_rest)
      with ([away_seed] ++ away_names ++ away_rest ++ [home_seed] ++ home_names ++ home_rest).
    rewrite clean_scores_loop_others by (constructor; [assumption | constructor]).
    rewrite clean_scores_loop_side by assumption.
    rewrite clean_scores_loop_others by (constructor; [assumption | constructor]).
    rewrite <- (app_nil_r home_rest) at 1.
    rewrite clean_scores_loop_side by assumption.
    simpl. rewrite <- !app_assoc. reflexivity.
  - simpl. now rewrite Hlen.
Qed.

(** ** Numeric tokens *)

Lemma digit_facts (c : ascii) :
  Py.isdigit c = true ->
  Py.isspace c = false /\ Py.isupper c = false
  /\ Ascii.eqb c "_" = false /\ c <> "-"%char /\ c <> "+"%char.
Proof.
  destruct c as [[] [] [] [] [] [] [] []]; vm_compute; intros Hd;
    try discriminate Hd; repeat split; discriminate.
Qed.

Lemma all_digits_no_space (s : string) : Py.all_digits s = true -> no_space s = true.
Proof.
  induction s as [|c s IH]; simpl; [reflexivity|].
  intros Hd. apply andb_prop in Hd as [Hc Hs].
  destruct (digit_facts c Hc) as (-> & _). simpl. auto.
Qed.

Lemma numeric_plain_word (tok : string) :
  Py.isnumeric tok = true -> plain_word tok = true.
Proof.
  destruct tok as [|c tok]; [discriminate|]. intros Hn.
  unfold plain_word, word. rewrite (all_digits_no_space _ Hn).
  simpl in Hn. apply andb_prop in Hn as [Hc _].
  destruct (digit_facts c Hc) as (_ & Hup & _). simpl. now rewrite Hup.
Qed.

Lemma no_space_rstrip (s : string) : no_space s = true -> Py.rstrip s = s.
Proof.
  induction s as [|c s IH]; simpl; [reflexivity|].
  intros Hns. apply andb_prop in Hns as [Hc Hs]. apply negb_true_iff in Hc.
  rewrite (IH Hs), Hc. destruct s; reflexivity.
Qed.

Lemma digits_value_some (s : string) (acc : Z) (after_digit : bool) :
  Py.all_digits s = true -> (s <> EmptyString \/ after_digit = true) ->
  exists z, Py.digits_value acc after_digit s = Some z.
Proof.
  revert acc after_digit. induction s as [|c s IH]; intros acc after_digit Hd Hne; simpl.
  - destruct Hne as [Hne| ->]; [contradiction | eauto].
  - simpl in Hd. apply andb_prop in Hd as [Hc Hs]. rewrite Hc. apply IH; auto.
Qed.

(** [int] reads every numeric token. *)
Lemma numeric_int (tok : string) :
  Py.isnumeric tok = true -> exists z, Py.int (PStr tok) = Ok z.
Proof.
  destruct tok as [|c tok]; [discriminate|]. intros Hn. simpl in Hn.
  assert (Hns := all_digits_no_space (String c tok) Hn).
  destruct (digits_value_some (String c tok) 0 false Hn) as (z & Hz);
    [left; discriminate|].
  exists z. unfold Py.int, Py.int_of_str.
  apply andb_prop in Hn as [Hc _].
  destruct (digit_facts c Hc) as (Hsp & _ & _ & Hminus & Hplus).
  assert (Hl : Py.lstrip (String c tok) = String c tok) by (simpl; now rewrite Hsp).
  rewrite Hl, (no_space_rstrip _ Hns).
  destruct c as [[] [] [] [] [] [] [] []];
    try (exfalso; apply Hminus; reflexivity);
    try (exfalso; apply Hplus; reflexivity);
    rewrite Hz; reflexivity.
Qed.

Lemma team_win_check_values (v : pair_vars) (za zh : Z) :
  Py.int (away_score v) = Ok za -> Py.int (home_score v) = Ok zh ->
  team_win_check v =
  Ok ((if (za >? zh)%Z then 1 else 0)%Z, (if (za <? zh)%Z then 1 else 0)%Z).
Proof.
  intros Ha Hh. unfold team_win_check. rewrite Ha, Hh. simpl.
  rewrite Z.gtb_ltb.
  destruct (Z.ltb_spec zh za); destruct (Z.ltb_spec za zh); try lia; reflexivity.
Qed.

Lemma words_of_names (names : list string) :
  Forall (fun tok => name_word tok = true) names ->
  Forall (fun tok => word tok = true) names
  /\ Forall (fun tok => starts_upper tok = true) names.
Proof.
  induction 1 as [|tok names Htok _ [IHw IHu]]; [split; constructor|].
  apply andb_prop in Htok as [Hw Hu]. split; constructor; assumption.
Qed.

(** ** Round trips of the classifier *)

(** X1.  A score text made of the words of the away name, its record and
    its score, then the same for the home team, all joined by single
    spaces, is read back: the names rejoined, the records and scores as
    written, the win flags from the comparison of the scores, no seeding. *)
Theorem get_score_data_regular_round_trip
  (away_names home_names : list string)
  (away_rec home_rec away_pts home_pts : string) :
  away_names <> [] -> home_names <> [] ->
  Forall (fun tok => name_word tok = true) away_names ->
  Forall (fun tok => name_word tok = true) home_names ->
  plain_word away_rec = true -> Py.isnumeric away_rec = false ->
  plain_word home_rec = true ->
  Py.isnumeric away_pts = true -> Py.isnumeric home_pts = true ->
  exists za zh,
    Py.int (PStr away_pts) = Ok za /\ Py.int (PStr home_pts) = Ok zh
    /\ get_score_data
         (Py.join " " (away_names ++ [away_rec; away_pts]
                       ++ home_names ++ [home_rec; home_pts])) =
       Ok [PStr (Py.join " " away_names); PStr away_rec; PStr away_pts;
           PInt (if (za >? zh)%Z then 1 else 0);
           PStr (Py.join " " home_names); PStr home_rec; PStr home_pts;
           PInt (if (za <? zh)%Z then 1 else 0);
           PNaN; PNaN; PInt 0].
Proof.
  intros Han Hhn Ha Hh Har Harn Hhr Hap Hhp.
  destruct (numeric_int _ Hap) as (za & Hza).
  destruct (numeric_int _ Hhp) as (zh & Hzh).
  exists za, zh. split; [exact Hza|]. split; [exact Hzh|].
  destruct (words_of_names _ Ha) as [Haw Hau].
  destruct (words_of_names _ Hh) as [Hhw Hhu].
  apply numeric_plain_word in Hap as Hapw. apply numeric_plain_word in Hhp as Hhpw.
  apply andb_prop in Har as [Harw Haro]. apply andb_prop in Hhr as [Hhrw Hhro].
  apply andb_prop in Hapw as [Hapw Hapo]. apply andb_prop in Hhpw as [Hhpw Hhpo].
  unfold get_score_data. rewrite split_join_words.
  - rewrite organize_game_data_regular;
      try assumption; try discriminate; try reflexivity;
      try (repeat constructor; assumption).
    simpl scores_records_loop. rewrite Harn, Hap. simpl bind.
    rewrite (team_win_check_values _ za zh) by (simpl; assumption). reflexivity.
  - repeat (apply Forall_app; split); auto.
Qed.

(** X2.  A postseason score text made of the away seed, the words of the
    away name and the away score, then the same for the home team, is read
    back with both seedings and the postseason flag 1; the records stay
    np.nan. *)
Theorem get_score_data_postseason_round_trip
  (away_names home_names : list string)
  (away_seed home_seed away_pts home_pts : string) :
  away_names <> [] -> home_names <> [] ->
  Forall (fun tok => name_word tok = true) away_names ->
  Forall (fun tok => name_word tok = true) home_names ->
  Py.isnumeric away_seed = true -> Py.isnumeric home_seed = true ->
  Py.isnumeric away_pts = true -> Py.isnumeric home_pts = true ->
  exists za zh,
    Py.int (PStr away_pts) = Ok za /\ Py.int (PStr home_pts) = Ok zh
    /\ get_score_data
         (Py.join " " (away_seed :: away_names ++ [away_pts]
                       ++ home_seed :: home_names ++ [home_pts])) =
       Ok [PStr (Py.join " " away_names); PNaN; PStr away_pts;
           PInt (if (za >? zh)%Z then 1 else 0);
           PStr (Py.join " " home_names); PNaN; PStr home_pts;
           PInt (if (za <? zh)%Z then 1 else 0);
           PStr away_seed; PStr home_seed; PInt 1].
Proof.
  intros Han Hhn Ha Hh Has Hhs Hap Hhp.
  destruct (numeric_int _ Hap) as (za & Hza).
  destruct (numeric_int _ Hhp) as (zh & Hzh).
  exists za, zh. split; [exact Hza|]. split; [exact Hzh|].
  destruct (words_of_names _ Ha) as [Haw Hau].
  destruct (words_of_names _ Hh) as [Hhw Hhu].
  apply numeric_plain_word in Hap as Hapw. apply numeric_plain_word in Hhp as Hhpw.
  apply numeric_plain_word in Has as Hasw. apply numeric_plain_word in Hhs as Hhsw.
  apply andb_prop in Hasw as [Hasw Haso]. apply andb_prop in Hhsw as [Hhsw Hhso].
  apply andb_prop in Hapw as [Hapw Hapo]. apply andb_prop in Hhpw as [Hhpw Hhpo].
  unfold get_score_data. rewrite split_join_words.
  - rewrite organize_game_data_postseason;
      try assumption; try discriminate; try reflexivity;
      try (repeat constructor; assumption).
    simpl scores_records_loop. rewrite Hap. simpl bind.
    rewrite (team_win_check_values _ za zh) by (simpl; assumption). reflexivity.
  - constructor; [assumption|].
    apply Forall_app; split; [assumption|].
    apply Forall_app; split; [auto|].
    constructor; [assumption|].
    apply Forall_app; split; auto.
Qed.

Lemma get_score_data_regular_round_trip_witness :
  exists za zh,
    Py.int (PStr "24") = Ok za /\ Py.int (PStr "17") = Ok zh
    /\ get_score_data
         (Py.join " " (["Kansas"; "City"; "Chiefs"] ++ ["11-2"; "24"]
                       ++ ["New"; "England"; "Patriots"] ++ ["8-5"; "17"])) =
       Ok [PStr (Py.join " " ["Kansas"; "City"; "Chiefs"]); PStr "11-2"; PStr "24";
           PInt (if (za >? zh)%Z then 1 else 0);
           PStr (Py.join " " ["New"; "England"; "Patriots"]); PStr "8-5"; PStr "17";
           PInt (if (za <? zh)%Z then 1 else 0);
           PNaN; PNaN; PInt 0].
Proof.
  apply (get_score_data_regular_round_trip
           ["Kansas"; "City"; "Chiefs"] ["New"; "England"; "Patriots"]
           "11-2" "8-5" "24" "17");
    try discriminate; try reflexivity; repeat constructor.
Defined.

Lemma get_score_data_postseason_round_trip_witness :
  exists za zh,
    Py.int (PStr "25") = Ok za /\ Py.int (PStr "22") = Ok zh
    /\ get_score_data
         (Py.join " " ("1" :: ["Chiefs"] ++ ["25"] ++ "1" :: ["Ravens"] ++ ["22"])) =
       Ok [PStr (Py.join " " ["Chiefs"]); PNaN; PStr "25";
           PInt (if (za >? zh)%Z then 1 else 0);
           PStr (Py.join " " ["Ravens"]); PNaN; PStr "22";
           PInt (if (za <? zh)%Z then 1 else 0);
           PStr "1"; PStr "1"; PInt 1].
Proof.
  apply (get_score_data_postseason_round_trip ["Chiefs"] ["Ravens"] "1" "1" "25" "22");
    try discriminate; try reflexivity; repeat constructor.
Defined.

(** ** Edges and invariants of the classifier *)

(** X3.  When the cleaned sequence of a score text has fewer than two
    elements (an empty text, a text of capitalised words only, a lone
    token), [get_score_data] raises IndexError. *)
Theorem get_score_data_too_short (scores_text : string) (clean multi : list string) :
  clean_scores_loop (Py.split scores_text) [] [] = Ok (clean, multi) ->
  length clean < 2 ->
  get_score_data scores_text = Raise IndexError.
Proof.
  intros Hclean Hshort. unfold get_score_data, organize_game_data.
  rewrite Hclean.
  destruct clean as [|x [|y clean]]; simpl in Hshort; try lia; reflexivity.
Qed.

Lemma get_score_data_too_short_witness :
  get_score_data "" = Raise IndexError
  /\ get_score_data "New York Giants" = Raise IndexError
  /\ get_score_data "24" = Raise IndexError.
Proof.
  split; [|split].
  - apply (get_score_data_too_short "" [] []); [reflexivity | simpl; lia].
  - apply (get_score_data_too_short "New York Giants" [] ["New"; "York"; "Giants"]);
      [reflexivity | simpl; lia].
  - apply (get_score_data_too_short "24" ["24"] []); [reflexivity | simpl; lia].
Defined.

Lemma scores_records_loop_pairs (away home : list string) (v v' : pair_vars) :
  both_or_neither PNaN (away_record v) (home_record v) ->
  both_or_neither (PInt 0) (away_score v) (home_score v) ->
  scores_records_loop away home v = Ok v' ->
  both_or_neither PNaN (away_record v') (home_record v')
  /\ both_or_neither (PInt 0) (away_score v') (home_score v').
Proof.
  revert home v. induction away as [|a away IH]; intros home v Hrec Hsc; simpl.
  - intros Hv. injection Hv as <-. auto.
  - destruct home as [|h home]; simpl; [discriminate|].
    apply IH; destruct (Py.isnumeric a); simpl; auto;
      right; exists a, h; auto.
Qed.

(** X4.  Whatever [get_score_data] returns is a list of its eleven fields in
    which the two records are both np.nan or both tokens, the two scores are
    both the int 0 or both tokens, the seedings are both np.nan with the
    postseason flag 0 or both tokens (the away one numeric) with the flag 1,
    and the win flags are 1 and 0, 0 and 1, or 0 and 0. *)
Theorem get_score_data_fields (scores_text : string) (data : list pyval) :
  get_score_data scores_text = Ok data ->
  exists away_name home_name v wins away_seeding home_seeding is_postseason,
    data = organized_game_data away_name home_name v wins
             away_seeding home_seeding is_postseason
    /\ both_or_neither PNaN (away_record v) (home_record v)
    /\ both_or_neither (PInt 0) (away_score v) (home_score v)
    /\ ((away_seeding = PNaN /\ home_seeding = PNaN /\ is_postseason = 0%Z)
        \/ (exists a h, away_seeding = PStr a /\ home_seeding = PStr h
                        /\ Py.isnumeric a = true /\ is_postseason = 1%Z))
    /\ In wins [(1, 0); (0, 1); (0, 0)]%Z.
Proof.
  unfold get_score_data, organize_game_data. intros Hd.
  bind_inv Hd. bind_inv Hd.
  destruct x0 as [[[[post aseed] hseed] away] home].
  do 6 bind_inv Hd. injection Hd as <-.
  exists x0, x1, x4, x5, aseed, hseed, post.
  split; [reflexivity|].
  assert (Hinit : both_or_neither PNaN (away_record initial_pair_vars)
                    (home_record initial_pair_vars)
                  /\ both_or_neither (PInt 0) (away_score initial_pair_vars)
                       (home_score initial_pair_vars)).
  { split; left; auto. }
  destruct Hinit as [Hr Hs].
  destruct (scores_records_loop_pairs _ _ _ _ Hr Hs E5) as [Hr' Hs'].
  split; [exact Hr'|]. split; [exact Hs'|]. split.
  - unfold postseason_check in E0.
    apply bind_ok in E0 as (a0 & _ & E0).
    destruct (Py.isnumeric a0) eqn:Hnum.
    + apply bind_ok in E0 as (h0 & _ & E0).
      do 2 bind_inv E0. injection E0 as <- <- <- _ _.
      right. exists a0, h0. auto.
    + injection E0 as <- <- <- _ _. left. auto.
  - destruct (team_win_check_flags _ _ E6) as (za & zh & _ & _ & ->).
    simpl. destruct (zh <? za)%Z eqn:H1; destruct (za <? zh)%Z eqn:H2; auto.
    apply Z.ltb_lt in H1, H2. lia.
Qed.

Lemma get_score_data_fields_witness :
  exists away_name home_name v wins away_seeding home_seeding is_postseason,
    [PStr "Chiefs"; PNaN; PStr "25"; PInt 1; PStr "Ravens"; PNaN; PStr "22"; PInt 0;
     PStr "1"; PStr "3"; PInt 1] =
      organized_game_data away_name home_name v wins
        away_seeding home_seeding is_postseason
    /\ both_or_neither PNaN (away_record v) (home_record v)
    /\ both_or_neither (PInt 0) (away_score v) (home_score v)
    /\ ((away_seeding = PNaN /\ home_seeding = PNaN /\ is_postseason = 0%Z)
        \/ (exists a h, away_seeding = PStr a /\ home_seeding = PStr h
                        /\ Py.isnumeric a = true /\ is_postseason = 1%Z))
    /\ In wins [(1, 0); (0, 1); (0, 0)]%Z.
Proof.
  apply (get_score_data_fields "1 Chiefs 25 3 Ravens 22"). reflexivity.
Defined.

(** ** The loop over the entries *)

Lemma process_entry_blank (chosen_year chosen_week : string) (df : data_frame)
  (i : entry_element) :
  blank i = true -> process_entry chosen_year chosen_week df i = Ok df.
Proof.
  unfold blank, process_entry, game_row, bye_row.
  destruct (game i); [discriminate|]. destruct (bye i); [discriminate|]. reflexivity.
Qed.

(** X5.  Elements with neither a played-game element nor a bye element
    leave no trace: the loop gives the same outcome with them taken out of
    the list. *)
Theorem blank_entries_skipped (chosen_year chosen_week : string) (df : data_frame)
  (entries : list entry_element) :
  process_entries chosen_year chosen_week df entries =
  process_entries chosen_year chosen_week df (filter (fun i => negb (blank i)) entries).
Proof.
  revert df. induction entries as [|i entries IH]; intros df; simpl; [reflexivity|].
  destruct (blank i) eqn:Hblank; simpl.
  - rewrite process_entry_blank by assumption. simpl. apply IH.
  - destruct (process_entry chosen_year chosen_week df i); simpl; [apply IH | reflexivity].
Qed.

(** X7.  An entry without a played-game element whose bye text has fewer
    than two words makes the turn, and with it the loop, raise IndexError:
    the bye path catches NoSuchElementException only. *)
Theorem bye_text_too_short (chosen_year chosen_week bye_text : string)
  (df : data_frame) (i : entry_element) (rest : list entry_element) :
  game i = None ->
  bye i = Some bye_text ->
  length (Py.split bye_text) < 2 ->
  process_entry chosen_year chosen_week df i = Raise IndexError
  /\ process_entries chosen_year chosen_week df (i :: rest) = Raise IndexError.
Proof.
  intros Hgame Hbye Hshort.
  assert (Hturn : process_entry chosen_year chosen_week df i = Raise IndexError).
  { unfold process_entry, game_row, bye_row. rewrite Hgame, Hbye.
    cbn [find_element bind].
    destruct (Py.split bye_text) as [|a [|b more]]; simpl in Hshort; try lia;
      reflexivity. }
  split; [exact Hturn|]. simpl. now rewrite Hturn.
Qed.

Lemma bye_text_too_short_witness :
  process_entries "2023" "Week 13" []
    [{| game := None; bye := Some "Bills" |}; played "FINAL - SUN 12/10" "Jets 4-8 10 Bears 5-7 13"] =
  Raise IndexError.
Proof.
  apply (bye_text_too_short "2023" "Week 13" "Bills" []
           {| game := None; bye := Some "Bills" |}); try reflexivity.
  simpl. lia.
Defined.

Lemma no_space_append (a b : string) :
  no_space a = true -> no_space b = true -> no_space (String.append a b) = true.
Proof.
  induction a as [|c a IH]; simpl; [auto|].
  intros Ha Hb. apply andb_prop in Ha as [Hc Ha]. rewrite Hc. simpl. auto.
Qed.

Lemma substring_prefix (a b : string) :
  substring 0 (String.length a) (String.append a b) = a.
Proof. induction a as [|c a IH]; simpl; [now destruct b | now rewrite IH]. Qed.

Lemma length_append (a b : string) :
  String.length (String.append a b) = String.length a + String.length b.
Proof. induction a as [|c a IH]; simpl; [reflexivity | now rewrite IH]. Qed.

Lemma strip_ends_parentheses (record : string) :
  Py.strip_ends (String "(" (String.append record ")")) = record.
Proof.
  unfold Py.strip_ends. simpl String.length. rewrite length_append. simpl.
  replace (String.length record + 1 - 0 - 1) with (String.length record) by lia.
  apply substring_prefix.
Qed.

(** X8.  A bye text of one word for the name, a space, and the record
    between parentheses is read back: the row of status BYE has that name as
    the team and the record without the parentheses, and 0 as the postseason
    flag. *)
Theorem bye_row_round_trip (chosen_year chosen_week name record : string)
  (df : data_frame) (i : entry_element) :
  game i = None ->
  bye i = Some (Py.join " " [name; String "(" (String.append record ")")]) ->
  word name = true ->
  no_space record = true ->
  process_entry chosen_year chosen_week df i =
    Ok (df ++ [[PStr chosen_year; PStr chosen_week; PStr "BYE"; PNone; PNone;
                PStr name; PStr record; PNaN; PNaN;
                PNone; PNaN; PNaN; PNaN; PNaN; PNaN; PInt 0]]).
Proof.
  intros Hgame Hbye Hname Hrecord.
  unfold process_entry, game_row, bye_row. rewrite Hgame, Hbye.
  cbn [find_element bind].
  rewrite split_join_words.
  - cbn [Py.index nth_error bind]. rewrite strip_ends_parentheses. reflexivity.
  - constructor; [assumption|]. constructor; [|constructor].
    simpl. apply no_space_append; [assumption | reflexivity].
Qed.

Lemma bye_row_round_trip_witness :
  process_entry "2023" "Week 13" []
    {| game := None; bye := Some "Bills (10-2)" |} =
    Ok [[PStr "2023"; PStr "Week 13"; PStr "BYE"; PNone; PNone;
         PStr "Bills"; PStr "10-2"; PNaN; PNaN;
         PNone; PNaN; PNaN; PNaN; PNaN; PNaN; PInt 0]].
Proof.
  apply (bye_row_round_trip "2023" "Week 13" "Bills" "10-2" []
           {| game := None; bye := Some "Bills (10-2)" |}); reflexivity.
Defined.

(** X9.  An entry whose played-game element has no status element, or has a
    status the parser accepts but no score element, is handled as an entry
    without a played-game element: by the bye path, on the bye element of
    the same entry. *)
Theorem missing_game_part_is_bye_candidate (chosen_year chosen_week : string)
  (df : data_frame) (i : entry_element) (g : game_element) :
  game i = Some g ->
  (status_and_date g = None
   \/ exists sad_text sad_data,
        status_and_date g = Some sad_text
        /\ get_game_status_date sad_text = Ok sad_data
        /\ score g = None) ->
  process_entry chosen_year chosen_week df i =
  process_entry chosen_year chosen_week df {| game := None; bye := bye i |}.
Proof.
  intros Hgame Hpart. unfold process_entry, game_row. rewrite Hgame. simpl.
  destruct Hpart as [Hsad|(sad_text & sad_data & Hsad & Hparse & Hscore)].
  - rewrite Hsad. reflexivity.
  - rewrite Hsad. simpl. rewrite Hparse. simpl. rewrite Hscore. reflexivity.
Qed.

Lemma missing_game_part_is_bye_candidate_witness :
  process_entry "2023" "Week 13" []
    {| game := Some {| status_and_date := Some "FINAL - SUN 12/10"; score := None |};
       bye := Some "Bills (10-2)" |} =
  process_entry "2023" "Week 13" []
    {| game := None;
       bye := bye {| game := Some {| status_and_date := Some "FINAL - SUN 12/10";
                                     score := None |};
                     bye := Some "Bills (10-2)" |} |}.
Proof.
  apply (missing_game_part_is_bye_candidate "2023" "Week 13" []
           {| game := Some {| status_and_date := Some "FINAL - SUN 12/10"; score := None |};
              bye := Some "Bills (10-2)" |}
           {| status_and_date := Some "FINAL - SUN 12/10"; score := None |}).
  - reflexivity.
  - right. exists "FINAL - SUN 12/10", ["FINAL"; "SUN"; "12/10"].
    repeat split; reflexivity.
Defined.

Lemma game_row_labels (chosen_year chosen_week : string) (i : entry_element)
  (row : list pyval) :
  game_row chosen_year chosen_week i = Ok row ->
  cell "Season" row = Some (PStr chosen_year)
  /\ cell "Week" row = Some (PStr chosen_week).
Proof.
  unfold game_row. intros Hrow. do 5 bind_inv Hrow. injection Hrow as <-.
  split; reflexivity.
Qed.

Lemma bye_row_labels (chosen_year chosen_week : string) (i : entry_element)
  (row : list pyval) :
  bye_row chosen_year chosen_week i = Ok row ->
  cell "Season" row = Some (PStr chosen_year)
  /\ cell "Week" row = Some (PStr chosen_week).
Proof.
  unfold bye_row. intros Hrow. do 3 bind_inv Hrow. injection Hrow as <-.
  split; reflexivity.
Qed.

Lemma process_entries_labelled (chosen_year chosen_week : string)
  (entries : list entry_element) (df : data_frame) :
  process_entries chosen_year chosen_week [] entries = Ok df ->
  Forall (labelled chosen_year chosen_week) df.
Proof.
  intros Hloop. apply Forall_forall. intros row Hin.
  destruct (process_entries_rows _ _ _ _ _ _ Hloop Hin) as [[]|(i & _ & Hlen & Hrow)].
  split; [exact Hlen|].
  destruct Hrow as [Hgame|[_ Hbye]];
    [now apply game_row_labels with i | now apply bye_row_labels with i].
Qed.

Section NavigationFacts.

Context {World : Type} `{RemoteView World}.

(** X10.  Every row of a data frame returned by [get_game_week_data] has
    one cell for each of the sixteen columns, and its Season and Week cells
    hold the season and the week the call was made with. *)
Theorem week_rows_labelled (chosen_year chosen_week : string) (max_attempts : Z)
  (s s' : session World) (df : data_frame) :
  get_game_week_data chosen_year chosen_week max_attempts s = (Ok (Some df), s') ->
  Forall (labelled chosen_year chosen_week) df.
Proof.
  intros Hcall.
  destruct (get_game_week_data_frame _ _ _ _ _ _ Hcall) as (entries & Hloop).
  now apply process_entries_labelled with entries.
Qed.

(** X11.  [select_year_and_week] returns [None] or raises an exception it
    has no handler for: a stale element or a missing option never leaves
    it, whatever the browser does and whatever the budget. *)
Theorem select_year_and_week_outcomes (chosen_year chosen_week : string)
  (max_attempts : Z) (s : session World) :
  fst (select_year_and_week chosen_year chosen_week max_attempts s) = Ok PNone
  \/ exists e,
       fst (select_year_and_week chosen_year chosen_week max_attempts s) = Raise e
       /\ In e unhandled.
Proof.
  remember (Z.to_nat max_attempts) as k eqn:Hk.
  revert max_attempts s Hk.
  induction k as [k IH] using lt_wf_ind. intros max_attempts s Hk.
  rewrite select_year_and_week_body.
  destruct (select_dropdowns chosen_year chosen_week
              (ensure_scores_page (enter max_attempts s))) as [[u|e] s1].
  - now left.
  - destruct e; try (now left);
      try (right; eexists; split; [reflexivity | simpl; tauto]).
    destruct (Z_gt_dec max_attempts 0) as [Hpos|Hneg]; [|now left].
    apply (IH (Z.to_nat (max_attempts - 1))); [lia | reflexivity].
Qed.

(** X12.  When the season dropdown is stale at every try, a call with the
    budget [max_attempts] makes one invocation more than the budget (one
    for a budget below 0), prints the searching line of each budget down to
    1 and then that no options were found, and returns [None]. *)
Theorem select_year_and_week_always_stale (chosen_year chosen_week : string)
  (max_attempts : Z) (s : session World) :
  (forall v, fst (dropdown_search_and_select "Season" chosen_year v) =
             Raise StaleElementReferenceException) ->
  exists s',
    select_year_and_week chosen_year chosen_week max_attempts s = (Ok PNone, s')
    /\ invocations s' = invocations s ++ budgets max_attempts (S (Z.to_nat max_attempts))
    /\ stdout s' =
         stdout s
         ++ map (searching_message " (select year and week)")
              (budgets max_attempts (Z.to_nat max_attempts))
         ++ ["Driver unable to find available options. Try again."].
Proof.
  intros Hstale.
  remember (Z.to_nat max_attempts) as k eqn:Hk.
  revert max_attempts s Hk.
  induction k as [|k IH]; intros max_attempts s Hk;
    rewrite select_year_and_week_body;
    destruct (select_dropdowns chosen_year chosen_week
                (ensure_scores_page (enter max_attempts s))) as [r s1] eqn:Hatt;
    destruct (attempt_log _ _ _ _ _ _ Hatt) as [Hout Hinv];
    assert (Hr : r = Raise StaleElementReferenceException)
      by (unfold select_dropdowns in Hatt;
          specialize (Hstale (view (ensure_scores_page (enter max_attempts s))));
          destruct (dropdown_search_and_select "Season" chosen_year _) as [r0 v1];
          simpl in Hstale; subst r0; now injection Hatt as <- _);
    subst r.
  - destruct (Z_gt_dec max_attempts 0); [lia|].
    eexists. split; [reflexivity|]. simpl. rewrite Hout, Hinv.
    unfold budgets. simpl. rewrite Z.sub_0_r. auto.
  - destruct (Z_gt_dec max_attempts 0); [|lia].
    destruct (IH (max_attempts - 1)%Z
                (print (searching_message " (select year and week)" max_attempts) s1))
      as (s' & Hrun & Hinv' & Hout'); [lia|].
    exists s'. split; [exact Hrun|].
    replace (Z.to_nat (max_attempts - 1)) with k in Hinv', Hout' by lia.
    rewrite Hinv', Hout'. cbn [print invocations stdout].
    rewrite Hinv, Hout, <- !app_assoc.
    rewrite (budgets_step max_attempts (S k)), (budgets_step max_attempts k).
    split; reflexivity.
Qed.

Lemma always_stale_gives_up (chosen_year chosen_week : string)
  (max_attempts : Z) (s : session World) :
  (forall v, fst (dropdown_search_and_select "Season" chosen_year v) =
             Raise StaleElementReferenceException) ->
  exists s',
    select_year_and_week chosen_year chosen_week max_attempts s = (Ok PNone, s')
    /\ In "Driver unable to find available options. Try again." (stdout s').
Proof.
  intros Hstale.
  remember (Z.to_nat max_attempts) as k eqn:Hk.
  revert max_attempts s Hk.
  induction k as [k IH] using lt_wf_ind. intros max_attempts s Hk.
  rewrite select_year_and_week_body.
  destruct (select_dropdowns chosen_year chosen_week
              (ensure_scores_page (enter max_attempts s))) as [r s1] eqn:Hatt.
  assert (Hr : r = Raise StaleElementReferenceException).
  { unfold select_dropdowns in Hatt.
    specialize (Hstale (view (ensure_scores_page (enter max_attempts s)))).
    destruct (dropdown_search_and_select "Season" chosen_year _) as [r0 v1].
    simpl in Hstale. subst r0. now injection Hatt as <- _. }
  subst r.
  destruct (Z_gt_dec max_attempts 0) as [Hpos|Hneg].
  - apply (IH (Z.to_nat (max_attempts - 1))); [lia | reflexivity].
  - eexists. split; [reflexivity|]. simpl. apply in_or_app. right. now left.
Qed.

(** X13.  [get_game_week_data] does not look at what navigation reports:
    when the season dropdown stays stale, [select_year_and_week] prints that
    no options were found and returns [None], and the call goes on to wait
    for the entries of whatever the page shows and returns their rows under
    the season and week it was asked for. *)
Theorem navigation_outcome_ignored (chosen_year chosen_week : string)
  (max_attempts : Z) (s : session World) (scores_shared_classname : string)
  (v2 v3 : World) (titles_scores_byes_webelements : list entry_element) :
  (forall v, fst (dropdown_search_and_select "Season" chosen_year v) =
             Raise StaleElementReferenceException) ->
  shared_classname
    (view (snd (select_year_and_week chosen_year chosen_week default_max_attempts s))) =
    (Ok scores_shared_classname, v2) ->
  enough_elements_present scores_shared_classname
    (num_score_elements chosen_week) v2 = (Ok titles_scores_byes_webelements, v3) ->
  fst (select_year_and_week chosen_year chosen_week default_max_attempts s) = Ok PNone
  /\ In "Driver unable to find available options. Try again."
       (stdout (snd (select_year_and_week chosen_year chosen_week
                       default_max_attempts s)))
  /\ get_game_week_data chosen_year chosen_week max_attempts s =
       (df <- process_entries chosen_year chosen_week []
                (skipn 3 titles_scores_byes_webelements) ;;
        Ok (Some df),
        with_view
          (snd (select_year_and_week chosen_year chosen_week default_max_attempts s))
          v3).
Proof.
  intros Hstale Hclass Hwait.
  destruct (always_stale_gives_up chosen_year chosen_week default_max_attempts s Hstale)
    as (s1 & Hrun & Hgave_up).
  rewrite get_game_week_data_body. unfold open_week, wait_for_entries.
  rewrite Hrun in *. simpl in Hclass. simpl.
  split; [reflexivity|]. split; [exact Hgave_up|].
  rewrite Hclass. simpl. rewrite Hwait. reflexivity.
Qed.

Lemma open_week_invocations (chosen_year chosen_week : string) (s : session World) :
  exists retries,
    retries <= 5
    /\ invocations (snd (open_week chosen_year chosen_week s)) =
         invocations s ++ budgets default_max_attempts (S retries).
Proof.
  destruct (select_year_and_week_invocations chosen_year chosen_week
              default_max_attempts s) as (retries & Hle & Hinv).
  exists retries. split; [exact Hle|]. unfold open_week.
  destruct (select_year_and_week chosen_year chosen_week default_max_attempts s)
    as [[r|e] s1]; simpl in Hinv; [|exact Hinv].
  destruct (shared_classname (view s1)) as [r' v2]. exact Hinv.
Qed.

Lemma pass_budgets_length (passes : list nat) :
  Forall (fun retries => retries <= 5) passes ->
  length passes <= length (pass_budgets passes) <= 6 * length passes.
Proof.
  unfold pass_budgets.
  induction 1 as [|retries passes Hle _ IH]; simpl; [lia|].
  rewrite length_app, length_map, length_seq. lia.
Qed.

(** A pass in which every select goes through and the entries do not
    appear: one invocation, with the default budget, and nothing printed. *)
Lemma pass_times_out (chosen_year chosen_week : string) (s : session World) :
  (forall id label v, fst (dropdown_search_and_select id label v) = Ok tt) ->
  (forall v, exists cls, fst (shared_classname v) = Ok cls) ->
  (forall cls expected v,
      fst (enough_elements_present cls expected v) = Raise TimeoutException) ->
  exists cls s1 s2,
    open_week chosen_year chosen_week s = (Ok cls, s1)
    /\ wait_for_entries cls chosen_week s1 = (Raise TimeoutException, s2)
    /\ invocations s2 = invocations s ++ [default_max_attempts]
    /\ stdout s2 = stdout s.
Proof.
  intros Hselect Hclass Hentries.
  destruct (select_dropdowns chosen_year chosen_week
              (ensure_scores_page (enter default_max_attempts s))) as [r s0] eqn:Hatt.
  destruct (attempt_log _ _ _ _ _ _ Hatt) as [Hout Hinv].
  assert (Hr : r = Ok tt).
  { unfold select_dropdowns in Hatt.
    pose proof (Hselect "Season" chosen_year
                  (view (ensure_scores_page (enter default_max_attempts s)))) as Hs.
    destruct (dropdown_search_and_select "Season" chosen_year _) as [r0 v1].
    simpl in Hs. subst r0.
    pose proof (Hselect "Week" chosen_week v1) as Hw.
    destruct (dropdown_search_and_select "Week" chosen_week v1) as [r1 v2].
    simpl in Hw. subst r1. now injection Hatt as <- _. }
  subst r. unfold open_week, wait_for_entries.
  rewrite select_year_and_week_body, Hatt.
  destruct (Hclass (view s0)) as (cls & Hcls).
  destruct (shared_classname (view s0)) as [rc v2]. simpl in Hcls. subst rc.
  pose proof (Hentries cls (num_score_elements chosen_week) v2) as Hent.
  exists cls, (with_view s0 v2). simpl view.
  destruct (enough_elements_present cls (num_score_elements chosen_week) v2) as [re v3].
  simpl in Hent. subst re.
  exists (with_view (with_view s0 v2) v3). auto.
Qed.

(** X14.  Each pass of [get_game_week_data] navigates anew with the default
    budget.  The invocations of [select_year_and_week] made by a call with
    the budget [max_attempts] are those of at least one and at most
    [max_attempts + 1] passes, each pass with the budgets 5, 4, ... of at
    most six invocations.  And when every select goes through and the wait
    for the entries times out every time, the call makes exactly
    [max_attempts + 1] navigations (one for a budget below 0), each of one
    invocation with the budget 5, prints its searching line for each budget
    down to 1 and then that it was unable to get the data, and returns
    [None]. *)
Theorem get_game_week_data_invocations (chosen_year chosen_week : string)
  (max_attempts : Z) (s : session World) :
  (exists passes,
      1 <= length passes <= Z.to_nat max_attempts + 1
      /\ Forall (fun retries => retries <= 5) passes
      /\ invocations (snd (get_game_week_data chosen_year chosen_week max_attempts s)) =
           invocations s ++ pass_budgets passes
      /\ 1 <= length (pass_budgets passes) <= 6 * (Z.to_nat max_attempts + 1))
  /\ ((forall id label v, fst (dropdown_search_and_select id label v) = Ok tt) ->
      (forall v, exists cls, fst (shared_classname v) = Ok cls) ->
      (forall cls expected v,
          fst (enough_elements_present cls expected v) = Raise TimeoutException) ->
      exists s',
        get_game_week_data chosen_year chosen_week max_attempts s = (Ok None, s')
        /\ invocations s' =
             invocations s ++ repeat default_max_attempts (S (Z.to_nat max_attempts))
        /\ stdout s' =
             stdout s
             ++ map (searching_message " (get game week data)")
                  (budgets max_attempts (Z.to_nat max_attempts))
             ++ ["Unable to get game week data."]).
Proof.
  split.
  - assert (Hpasses : exists passes,
               1 <= length passes <= Z.to_nat max_attempts + 1
               /\ Forall (fun retries => retries <= 5) passes
               /\ invocations (snd (get_game_week_data chosen_year chosen_week
                                      max_attempts s)) =
                    invocations s ++ pass_budgets passes).
    { remember (Z.to_nat max_attempts) as k eqn:Hk.
      revert max_attempts s Hk.
      induction k as [k IH] using lt_wf_ind. intros max_attempts s Hk.
      rewrite get_game_week_data_body.
      destruct (open_week_invocations chosen_year chosen_week s)
        as (retries & Hle & Hinv).
      assert (Hone : exists passes,
                 1 <= length passes <= k + 1
                 /\ Forall (fun r => r <= 5) passes
                 /\ invocations s ++ budgets default_max_attempts (S retries) =
                      invocations s ++ pass_budgets passes).
      { exists [retries]. unfold pass_budgets. simpl flat_map.
        rewrite app_nil_r. simpl length.
        split; [lia|]. split; [now constructor | reflexivity]. }
      destruct (open_week chosen_year chosen_week s) as [[cls|e] s1]; simpl in Hinv;
        [|simpl; rewrite Hinv; exact Hone].
      unfold wait_for_entries.
      destruct (enough_elements_present cls (num_score_elements chosen_week) (view s1))
        as [[els|e] v2];
        [simpl; rewrite Hinv; exact Hone|].
      destruct e; try (simpl; rewrite Hinv; exact Hone).
      destruct (Z_gt_dec max_attempts 0) as [Hpos|Hneg];
        [|simpl; rewrite Hinv; exact Hone].
      destruct (IH (Z.to_nat (max_attempts - 1)) ltac:(lia) (max_attempts - 1)%Z
                  (print (searching_message " (get game week data)" max_attempts)
                     (with_view s1 v2)) eq_refl) as (passes & Hlen & Hall & Hrun).
      exists (retries :: passes). simpl length.
      split; [lia|]. split; [now constructor|].
      rewrite Hrun. simpl invocations. rewrite Hinv, <- app_assoc. reflexivity. }
    destruct Hpasses as (passes & Hlen & Hall & Hinv).
    exists passes. repeat split; try assumption; try lia;
      pose proof (pass_budgets_length passes Hall); lia.
  - intros Hselect Hclass Hentries.
    remember (Z.to_nat max_attempts) as k eqn:Hk.
    revert max_attempts s Hk.
    induction k as [|k IH]; intros max_attempts s Hk;
      rewrite get_game_week_data_body;
      destruct (pass_times_out chosen_year chosen_week s Hselect Hclass Hentries)
        as (cls & s1 & s2 & -> & -> & Hinv & Hout).
    + destruct (Z_gt_dec max_attempts 0); [lia|].
      eexists. split; [reflexivity|]. simpl. rewrite Hinv, Hout. auto.
    + destruct (Z_gt_dec max_attempts 0); [|lia].
      destruct (IH (max_attempts - 1)%Z
                  (print (searching_message " (get game week data)" max_attempts) s2))
        as (s' & Hrun & Hinv' & Hout'); [lia|].
      exists s'. split; [exact Hrun|].
      replace (Z.to_nat (max_attempts - 1)) with k in Hinv', Hout' by lia.
      rewrite Hinv', Hout'. cbn [print invocations stdout].
      rewrite Hinv, Hout, <- !app_assoc.
      rewrite (budgets_step max_attempts k).
      split; reflexivity.
Qed.

End NavigationFacts.

Lemma week_rows_labelled_witness :
  Forall (labelled "2023" "Week 14") [tie_row; cancelled_row].
Proof.
  apply (week_rows_labelled "2023" "Week 14" 5
           (Page.start (Page.scores_page 0 week_with_tie_and_cancelled))
           {| view := Page.choose "Week" "Week 14"
                        (Page.choose "Season" "2023"
                           (Page.scores_page 0 week_with_tie_and_cancelled));
              stdout := []; invocations := [5%Z] |}).
  vm_compute. reflexivity.
Defined.

Lemma select_year_and_week_always_stale_witness :
  exists s',
    select_year_and_week "2023" "Week 14" 2
      {| view := tt; stdout := []; invocations := [] |} = (Ok PNone, s')
    /\ invocations s' = [] ++ budgets 2 (S (Z.to_nat 2))
    /\ stdout s' =
         [] ++ map (searching_message " (select year and week)") (budgets 2 (Z.to_nat 2))
         ++ ["Driver unable to find available options. Try again."].
Proof.
  apply (select_year_and_week_always_stale "2023" "Week 14" 2
           {| view := tt; stdout := []; invocations := [] |}).
  intros v. reflexivity.
Defined.

Lemma navigation_outcome_ignored_witness :
  fst (get_game_week_data "2023" "Super Bowl" 5
         (fresh {| stale_shown := super_bowl_page |})) =
    Ok (Some [super_bowl_row "Super Bowl"])
  /\ In "Driver unable to find available options. Try again."
       (stdout (snd (get_game_week_data "2023" "Super Bowl" 5
                       (fresh {| stale_shown := super_bowl_page |})))).
Proof.
  destruct (navigation_outcome_ignored "2023" "Super Bowl" 5
              (fresh {| stale_shown := super_bowl_page |})
              "nfl-c-matchup-strip"
              {| stale_shown := super_bowl_page |} {| stale_shown := super_bowl_page |}
              super_bowl_page) as (_ & Hgave_up & Hcall).
  - intros v. reflexivity.
  - reflexivity.
  - reflexivity.
  - rewrite Hcall. split; [reflexivity | exact Hgave_up].
Defined.

Lemma get_game_week_data_invocations_witness :
  exists s',
    get_game_week_data "2023" "Week 14" 2 (fresh Empty_page) = (Ok None, s')
    /\ invocations s' = [] ++ repeat default_max_attempts (S (Z.to_nat 2))
    /\ stdout s' =
         [] ++ map (searching_message " (get game week data)") (budgets 2 (Z.to_nat 2))
         ++ ["Unable to get game week data."].
Proof.
  apply (proj2 (get_game_week_data_invocations "2023" "Week 14" 2
                  (fresh Empty_page))).
  - intros id label v. reflexivity.
  - intros v. exists "nfl-c-matchup-strip". reflexivity.
  - intros cls expected v. reflexivity.
Defined.

(** ** The catalog and the driver loop *)

Lemma skipn_nth_error {A : Type} (l : list A) (n : nat) (x : A) :
  nth_error l n = Some x -> skipn n l = x :: skipn (S n) l.
Proof.
  revert n. induction l as [|y l IH]; intros [|n]; simpl; try discriminate.
  - intros Hx. now injection Hx as ->.
  - apply IH.
Qed.

Section DriverFacts.

Context {World : Type} `{RemoteView World} `{CatalogView World}.

Lemma display_seasons_and_weeks_body (max_attempts : Z) (s : session World) :
  display_seasons_and_weeks max_attempts s =
  match list_seasons_and_weeks (ensure_scores_page s) with
  | (Ok df, s1) => (Ok (Some df), s1)
  | (Raise StaleElementReferenceException, s1) =>
      if Z_gt_dec max_attempts 0
      then display_seasons_and_weeks (max_attempts - 1)
             (print (searching_message "" max_attempts) s1)
      else (Ok None, print "Driver unable to find available options. Try again." s1)
  | (Raise e, s1) => (Raise e, s1)
  end.
Proof.
  simp display_seasons_and_weeks.
  destruct (list_seasons_and_weeks (ensure_scores_page s)) as [[df|e] s1];
    simp display_seasons_and_weeks; [reflexivity|].
  destruct e; simp display_seasons_and_weeks; try reflexivity.
  destruct (Z_gt_dec max_attempts 0); simp display_seasons_and_weeks; reflexivity.
Qed.



Lemma list_seasons_and_weeks_stdout (s : session World) :
  stdout (snd (list_seasons_and_weeks s)) = stdout s.
Proof.
  unfold list_seasons_and_weeks.
  destruct (season_options (view s)) as [[options|e] v1]; [|reflexivity].
  destruct (season_weeks_loop options [] v1); reflexivity.
Qed.

(** X16.  [display_seasons_and_weeks] returns a frame or [None], or raises
    an exception other than that of a stale element, which never leaves it;
    and it prints at most one line more than its budget. *)
Theorem display_seasons_and_weeks_outcomes (max_attempts : Z) (s : session World) :
  ((exists df, fst (display_seasons_and_weeks max_attempts s) = Ok (Some df))
   \/ fst (display_seasons_and_weeks max_attempts s) = Ok None
   \/ exists e,
        fst (display_seasons_and_weeks max_attempts s) = Raise e
        /\ In e (NoSuchElementException :: unhandled))
  /\ length (stdout (snd (display_seasons_and_weeks max_attempts s))) <=
       length (stdout s) + Z.to_nat max_attempts + 1.
Proof.
  remember (Z.to_nat max_attempts) as k eqn:Hk.
  revert max_attempts s Hk.
  induction k as [k IH] using lt_wf_ind. intros max_attempts s Hk.
  rewrite display_seasons_and_weeks_body.
  pose proof (list_seasons_and_weeks_stdout (ensure_scores_page s)) as Hout.
  rewrite (proj1 (ensure_scores_page_log s)) in Hout.
  destruct (list_seasons_and_weeks (ensure_scores_page s)) as [[df|e] s1];
    simpl in Hout.
  - split; [left; exists df; reflexivity | simpl; rewrite Hout; lia].
  - destruct e;
      try (split; [right; right; eexists; split; [reflexivity | simpl; tauto]
                  | simpl; rewrite Hout; lia]).
    destruct (Z_gt_dec max_attempts 0) as [Hpos|Hneg].
    + destruct (IH (Z.to_nat (max_attempts - 1)) ltac:(lia) (max_attempts - 1)%Z
                  (print (searching_message "" max_attempts) s1) eq_refl)
        as [Hcases Hlen].
      split; [exact Hcases|].
      simpl in Hlen. rewrite length_app, Hout in Hlen. simpl in Hlen. lia.
    + split; [right; left; reflexivity|].
      simpl. rewrite length_app, Hout. simpl. lia.
Qed.

(** X17.  [main] scrapes nothing and writes no file when the catalog lists
    six seasons or fewer; and when the listing used up its budget and
    returned [None], [main] ends with a TypeError. *)
Theorem main_without_scraping (s s1 : session World) :
  (display_seasons_and_weeks default_max_attempts (print "STARTING" s) = (Ok None, s1) ->
   main s = (Raise TypeError, [], s1))
  /\ (forall available_options,
         display_seasons_and_weeks default_max_attempts (print "STARTING" s) =
           (Ok (Some available_options), s1) ->
         length available_options <= 6 ->
         main s = (Ok tt, [], s1)).
Proof.
  unfold main. split.
  - intros ->. reflexivity.
  - intros available_options -> Hfew. rewrite length_map.
    replace (length available_options - 6) with 0 by lia. reflexivity.
Qed.

Lemma main_weeks_loop_season (available_years : list string) (i : nat) (year : string)
  (weeks : list string) (data data' : data_frame) (s s' : session World) :
  nth_error available_years i = Some year ->
  Forall (fun row => cell "Season" row = Some (PStr year)) data ->
  main_weeks_loop available_years i weeks data s = (Ok data', s') ->
  Forall (fun row => cell "Season" row = Some (PStr year)) data'.
Proof.
  intros Hyear. revert data s.
  induction weeks as [|j weeks IH]; intros data s Hdata; simpl.
  - intros Hr. now injection Hr as <- _.
  - unfold Py.index. rewrite Hyear.
    destruct (get_game_week_data year j default_max_attempts _)
      as [[adding_data|e] s1] eqn:Hcall; [|discriminate].
    apply IH. destruct adding_data as [df|]; simpl; [|exact Hdata].
    apply Forall_app. split; [exact Hdata|].
    destruct (get_game_week_data_frame _ _ _ _ _ _ Hcall) as (entries & Hloop).
    apply process_entries_labelled in Hloop.
    eapply Forall_impl; [|exact Hloop]. intros row (_ & Hseason & _). exact Hseason.
Qed.

Lemma main_seasons_loop_files (count : nat) :
  forall (first : nat) (available_years : list string)
         (available_weeks : list (list string)) (files files' : csv_files)
         (s s' : session World) (r : result unit),
    first + count <= length available_years ->
    length available_weeks = length available_years ->
    main_seasons_loop (seq first count) available_years available_weeks files s =
      (r, files', s') ->
    exists done new,
      done <= count
      /\ files' = files ++ new
      /\ map fst new =
           map (fun year => String.append year "_scores.csv")
             (firstn done (skipn first available_years))
      /\ (r = Ok tt -> done = count)
      /\ Forall file_of_season new.
Proof.
  induction count as [|count IH];
    intros first years weeks files files' s s' r Hrange Hsame; simpl.
  - intros Hr. injection Hr as <- <- _. exists 0, []. rewrite app_nil_r.
    repeat split; auto.
  - destruct (nth_error weeks first) as [ws|] eqn:Hws;
      [|apply nth_error_None in Hws; lia].
    destruct (nth_error years first) as [year|] eqn:Hyear;
      [|apply nth_error_None in Hyear; lia].
    unfold Py.index at 1. rewrite Hws.
    destruct (main_weeks_loop years first ws [] s) as [[data|e] s1] eqn:Hweeks.
    + unfold Py.index. rewrite Hyear. intros Hrest.
      destruct (IH (S first) years weeks _ _ _ _ _ ltac:(lia) Hsame Hrest)
        as (done & new & Hle & -> & Hnames & Hall & Hfiles).
      exists (S done), ((String.append year "_scores.csv", data) :: new).
      rewrite <- app_assoc. rewrite (skipn_nth_error _ _ _ Hyear).
      split; [lia|]. split; [reflexivity|].
      split; [simpl; now rewrite Hnames|].
      split; [intros Hr; now rewrite Hall|].
      constructor; [|exact Hfiles]. exists year. split; [reflexivity|].
      simpl. eapply main_weeks_loop_season; eauto.
    + intros Hr. injection Hr as <- <- _. exists 0, []. rewrite app_nil_r.
      repeat split; auto; try lia. discriminate.
Qed.

(** X18.  [main] writes its files in the order of the catalog, one for each
    season from the first on and named after it, and never one for the last
    six seasons listed; a run that ends without an exception has written
    the file of every season but those six. *)
Theorem main_files_named (s s1 s' : session World) (available_options : catalog_frame)
  (r : result unit) (files : csv_files) :
  display_seasons_and_weeks default_max_attempts (print "STARTING" s) =
    (Ok (Some available_options), s1) ->
  main s = (r, files, s') ->
  exists done,
    done <= length available_options - 6
    /\ map fst files =
         map (fun year => String.append year "_scores.csv")
           (firstn done (map fst available_options))
    /\ (r = Ok tt -> done = length available_options - 6).
Proof.
  intros Hcatalog. unfold main. rewrite Hcatalog. intros Hloop.
  apply main_seasons_loop_files in Hloop
    as (done & new & Hle & -> & Hnames & Hall & _).
  - exists done. rewrite length_map in Hle, Hall. simpl in Hnames. auto.
  - rewrite length_map. simpl. lia.
  - now rewrite !length_map.
Qed.

(** X19.  Every file [main] writes is named after one season and holds
    rows of that season only: the rows gathered for a season are not
    carried over to the next. *)
Theorem main_files_hold_one_season (s s' : session World) (r : result unit)
  (files : csv_files) :
  main s = (r, files, s') -> Forall file_of_season files.
Proof.
  unfold main.
  destruct (display_seasons_and_weeks default_max_attempts (print "STARTING" s))
    as [[[available_options|]|e] s1].
  - intros Hloop.
    apply main_seasons_loop_files in Hloop as (done & new & _ & -> & _ & _ & Hfiles).
    + exact Hfiles.
    + rewrite length_map. simpl. lia.
    + now rewrite !length_map.
  - intros Hr. injection Hr as _ <- _. constructor.
  - intros Hr. injection Hr as _ <- _. constructor.
Qed.

End DriverFacts.


Lemma main_without_scraping_witness :
  (exists s1,
      main (Page.start (catalog_page 9 seven_seasons super_bowl_page)) =
      (Raise TypeError, [], s1))
  /\ (exists s1,
        main (Page.start (catalog_page 0 (firstn 6 seven_seasons) super_bowl_page)) =
        (Ok tt, [], s1)).
Proof.
  split.
  - exists {| view := catalog_page 3 seven_seasons super_bowl_page;
              stdout := ["STARTING";
                         "SEARCHING, attempting 5 more times";
                         "SEARCHING, attempting 4 more times";
                         "SEARCHING, attempting 3 more times";
                         "SEARCHING, attempting 2 more times";
                         "SEARCHING, attempting 1 more times";
                         "Driver unable to find available options. Try again."];
              invocations := [] |}.
    apply (proj1 (main_without_scraping _ _)). vm_compute. reflexivity.
  - exists {| view := Page.choose "Season" "2018"
                        (catalog_page 0 (firstn 6 seven_seasons) super_bowl_page);
              stdout := ["STARTING"]; invocations := [] |}.
    apply (proj2 (main_without_scraping _ _) (firstn 6 seven_seasons)).
    + vm_compute. reflexivity.
    + simpl. lia.
Defined.

Lemma main_files_named_witness :
  exists done,
    done <= length seven_seasons - 6
    /\ map fst [("2023_scores.csv", [super_bowl_row "Super Bowl"])] =
         map (fun year => String.append year "_scores.csv")
           (firstn done (map fst seven_seasons))
    /\ (Ok tt = Ok tt -> done = length seven_seasons - 6).
Proof.
  refine (main_files_named
            (Page.start (catalog_page 0 seven_seasons super_bowl_page))
            {| view := Page.choose "Season" "2017"
                         (catalog_page 0 seven_seasons super_bowl_page);
               stdout := ["STARTING"]; invocations := [] |}
            {| view := Page.choose "Week" "Super Bowl"
                         (Page.choose "Season" "2023"
                            (catalog_page 0 seven_seasons super_bowl_page));
               stdout := ["STARTING"; "2023 Super Bowl"]; invocations := [5%Z] |}
            seven_seasons (Ok tt)
            [("2023_scores.csv", [super_bowl_row "Super Bowl"])] _ _);
    vm_compute; reflexivity.
Defined.

Lemma main_files_hold_one_season_witness :
  Forall file_of_season [("2023_scores.csv", [super_bowl_row "Super Bowl"])].
Proof.
  refine (main_files_hold_one_season
            (Page.start (catalog_page 0 seven_seasons super_bowl_page))
            {| view := Page.choose "Week" "Super Bowl"
                         (Page.choose "Season" "2023"
                            (catalog_page 0 seven_seasons super_bowl_page));
               stdout := ["STARTING"; "2023 Super Bowl"]; invocations := [5%Z] |}
            (Ok tt)
            [("2023_scores.csv", [super_bowl_row "Super Bowl"])] _).
  vm_compute. reflexivity.
Defined.

(** ** Round trip of the status and date *)

(** X20.  A status text made of a status, the separator, a day and a date,
    joined by single spaces, none of the three being CANCELLED, is read back
    as the status, the day and the date. *)
Theorem get_game_status_date_round_trip (status day date : string) :
  word status = true -> word day = true -> word date = true ->
  ~ In "CANCELLED" [status; day; date] ->
  get_game_status_date (Py.join " " [status; "-"; day; date]) = Ok [status; day; date].
Proof.
  intros Hs Hd Ht Hnc. unfold get_game_status_date.
  rewrite split_join_words by (repeat constructor; assumption).
  unfold game_status_date.
  assert (Hcount : Py.count "CANCELLED" [status; "-"; day; date] = 0).
  { apply count_zero_not_in. intros [Hx|[Hx|Hx]].
    - apply Hnc. now left.
    - discriminate Hx.
    - apply Hnc. now right. }
  rewrite Hcount. simpl.
  destruct (String.eqb_spec status "-") as [->|_]; reflexivity.
Qed.

Lemma get_game_status_date_round_trip_witness :
  get_game_status_date (Py.join " " ["FINAL/OT"; "-"; "SUN"; "12/10"]) =
  Ok ["FINAL/OT"; "SUN"; "12/10"].
Proof.
  apply (get_game_status_date_round_trip "FINAL/OT" "SUN" "12/10");
    try reflexivity.
  simpl. intros [Hx|[Hx|[Hx|[]]]]; discriminate Hx.
Defined.
